(** * Verification of the S3 size scripts of SCouto/scripts (src/getS3Size)

    Shallow embedding of the size-aggregation logic of
    [s3_folder_sizes.py], [s3_folder_sizes_2level.py],
    [s3_bucket_sizes_with_folder.py], [s3_bucket_sizes_fast.py] and
    [s3_bucket_sizes_cli.py].

    Conventions:
    - Python [str] values are modelled as [String.string] (ASCII text);
    - Python [int] values are [Z];
    - a Python [dict] is an association list that keeps insertion order
      (the order a Python 3 dict iterates in);
    - AWS calls are parameters of the functions (the listing pages, the
      metric responses, the subprocess outcome); a call that may raise returns
      an [outcome]. *)

From Stdlib Require Import ZArith QArith List Bool Lia Permutation Sorted.
From Stdlib Require Import Qfield.
From Stdlib Require Import Strings.String Strings.Ascii Numbers.DecimalString.
From Stdlib Require Numbers.DecimalZ.
Import ListNotations.
Open Scope string_scope.

(** ** Python helpers *)

(** Result of a call that may raise an exception. *)
Inductive outcome (A : Type) : Type :=
| Ok (a : A)
| Exc.
Arguments Ok {A} a.
Arguments Exc {A}.

Definition slash : ascii := "/"%char.

(** [c in s] for a one-character [c]. *)
Fixpoint str_contains (c : ascii) (s : string) : bool :=
  match s with
  | EmptyString => false
  | String x r => Ascii.eqb x c || str_contains c r
  end.

(** [s[n:]]: Python slicing, empty when [n] is past the end. *)
Fixpoint str_drop (n : nat) (s : string) : string :=
  match n, s with
  | O, _ => s
  | S n', EmptyString => EmptyString
  | S n', String _ r => str_drop n' r
  end.

(** [s.split(c)]: never empty, ["".split("/") == [""]]. *)
Fixpoint str_split (c : ascii) (s : string) : list string :=
  match s with
  | EmptyString => [EmptyString]
  | String x r =>
      let parts := str_split c r in
      if Ascii.eqb x c then EmptyString :: parts
      else match parts with
           | h :: t => String x h :: t
           | [] => [String x EmptyString]
           end
  end.

(** [sep.join(l)]. *)
Fixpoint str_join (sep : string) (l : list string) : string :=
  match l with
  | [] => EmptyString
  | [x] => x
  | x :: r => x ++ sep ++ str_join sep r
  end.

(** [l[:d]] for an integer [d], negative indices counting from the end. *)
Definition py_slice_to {A} (d : Z) (l : list A) : list A :=
  firstn (Z.to_nat (if (d <? 0)%Z then (Z.of_nat (List.length l) + d)%Z else d)) l.

(** [s.endswith(t)]. *)
Definition str_endswith (t s : string) : bool :=
  (String.length t <=? String.length s)%nat &&
  String.eqb (str_drop (String.length s - String.length t) s) t.

(** [s.startswith(t)]. *)
Definition str_startswith (t s : string) : bool := String.prefix t s.

(** A dict updated with [d[k] += v] ([defaultdict(int)] semantics): an
    existing key keeps its place, a new key is appended. *)
Fixpoint dict_add (k : string) (v : Z) (d : list (string * Z)) : list (string * Z) :=
  match d with
  | [] => [(k, v)]
  | (k', v') :: r =>
      if String.eqb k k' then (k', (v' + v)%Z) :: r else (k', v') :: dict_add k v r
  end.

Definition dict_sum (d : list (string * Z)) : Z := fold_right (fun kv acc => (snd kv + acc)%Z) 0%Z d.

(** ** Object listings (boto3 [list_objects_v2] paginator) *)

Record S3Object := mkObj { Key : string; Size : Z }.

(** One page of the paginator; [None] when the page has no ['Contents']. *)
Definition page := option (list S3Object).

(** [page.get('Contents', [])]. *)
Definition page_contents (p : page) : list S3Object :=
  match p with Some l => l | None => [] end.

Definition all_objects (pages : list page) : list S3Object :=
  flat_map page_contents pages.

Definition objects_size (objs : list S3Object) : Z :=
  fold_right (fun o acc => (Size o + acc)%Z) 0%Z objs.

(** ** s3_folder_sizes.py: [get_s3_folder_sizes] (single level) *)

Module FolderSizes.

Definition root_key : string := "(root)".

(** [stripped_key = key[len(prefix):] if prefix else key] *)
Definition strip_prefix (prefix key : string) : string :=
  if String.eqb prefix "" then key else str_drop (String.length prefix) key.

(** [folder = parts[0] if '/' in stripped_key else '(root)'] *)
Definition folder_of (prefix key : string) : string :=
  let stripped_key := strip_prefix prefix key in
  let parts := str_split slash stripped_key in
  if str_contains slash stripped_key then hd EmptyString parts else root_key.

Definition add_object (prefix : string) (d : list (string * Z)) (obj : S3Object)
  : list (string * Z) :=
  dict_add (folder_of prefix (Key obj)) (Size obj) d.

(** The loop over the pages and their objects, starting from an empty dict. *)
Definition get_s3_folder_sizes (pages : list page) (prefix : string) : list (string * Z) :=
  fold_left (fun d p => fold_left (add_object prefix) (page_contents p) d) pages [].

End FolderSizes.

(** ** s3_folder_sizes_2level.py: [get_s3_folder_sizes] (depth grouping) *)

Module FolderSizes2.

(** [if len(parts) == 1: '(root)' else '/'.join(parts[:depth])] *)
Definition folder_of (prefix : string) (depth : Z) (key : string) : string :=
  let stripped_key := FolderSizes.strip_prefix prefix key in
  let parts := str_split slash stripped_key in
  if (List.length parts =? 1)%nat then "(root)" else str_join "/" (py_slice_to depth parts).

Definition add_object (prefix : string) (depth : Z) (d : list (string * Z)) (obj : S3Object)
  : list (string * Z) :=
  dict_add (folder_of prefix depth (Key obj)) (Size obj) d.

Definition get_s3_folder_sizes (pages : list page) (prefix : string) (depth : Z)
  : list (string * Z) :=
  fold_left (fun d p => fold_left (add_object prefix depth) (page_contents p) d) pages [].

End FolderSizes2.

(** ** s3_bucket_sizes_with_folder.py: [get_folder_size_s3] *)

Module FolderScan.

(** The inner dict [{'size': ..., 'count': ...}] of a subfolder. *)
Record SubStat := mkStat { st_size : Z; st_count : Z }.

Definition direct_files : string := "(archivos directos)".

(** Loop state: [total_size], [object_count], [subfolder_sizes]. *)
Record Acc := mkAcc { total_size : Z; object_count : Z; subfolder_sizes : list (string * SubStat) }.

(** [if subfolder_key not in subfolder_sizes: ... = {'size': 0, 'count': 0}]
    followed by [['size'] += obj_size] and [['count'] += 1]. *)
Fixpoint stat_add (k : string) (sz : Z) (d : list (string * SubStat)) : list (string * SubStat) :=
  match d with
  | [] => [(k, mkStat (0 + sz) (0 + 1))]
  | (k', s) :: r =>
      if String.eqb k k' then (k', mkStat (st_size s + sz) (st_count s + 1)) :: r
      else (k', s) :: stat_add k sz r
  end.

(** The subfolder key of an object, relative to [folder_path]. *)
Definition subfolder_key (folder_path obj_key : string) : string :=
  let relative_path := str_drop (String.length folder_path) obj_key in
  if str_contains slash relative_path then
    let subfolder := hd EmptyString (str_split slash relative_path) in
    folder_path ++ subfolder ++ "/"
  else folder_path ++ direct_files.

Definition step (folder_path : string) (a : Acc) (obj : S3Object) : Acc :=
  mkAcc (total_size a + Size obj) (object_count a + 1)
        (stat_add (subfolder_key folder_path (Key obj)) (Size obj) (subfolder_sizes a)).

(** [if folder_path and not folder_path.endswith('/'): folder_path += '/'] *)
Definition normalize (folder_path : string) : string :=
  if negb (String.eqb folder_path "") && negb (str_endswith "/" folder_path)
  then folder_path ++ "/" else folder_path.

(** The paginator may raise while pages are fetched; the [except] branch
    returns [(folder_path, 0, 0, {})]. The listing is taken for the
    normalised [folder_path] as prefix. *)
Definition get_folder_size_s3 (listing : outcome (list page)) (folder_path : string)
  : string * Z * Z * list (string * SubStat) :=
  let folder_path := normalize folder_path in
  match listing with
  | Exc => (folder_path, 0%Z, 0%Z, [])
  | Ok pages =>
      let a := fold_left (fun a p => fold_left (step folder_path) (page_contents p) a)
                         pages (mkAcc 0 0 []) in
      (folder_path, total_size a, object_count a, subfolder_sizes a)
  end.

(** Display name of a subfolder key in [main]: strip [folder_path] and a
    trailing ['/']; an empty name shows as ["(archivos directos)"]. *)
Definition display_name (folder_path subfolder_path : string) : string :=
  let n1 := if str_startswith folder_path subfolder_path
            then str_drop (String.length folder_path) subfolder_path else subfolder_path in
  let n2 := if str_endswith "/" n1
            then substring 0 (String.length n1 - 1) n1 else n1 in
  if String.eqb n2 "" then direct_files else n2.

Definition stat_sizes (d : list (string * SubStat)) : Z :=
  fold_right (fun kv acc => (st_size (snd kv) + acc)%Z) 0%Z d.
Definition stat_counts (d : list (string * SubStat)) : Z :=
  fold_right (fun kv acc => (st_count (snd kv) + acc)%Z) 0%Z d.

(** The loop invariant of [get_folder_size_s3]. *)
Definition acc_inv (a : Acc) : Prop :=
  stat_sizes (subfolder_sizes a) = total_size a /\
  stat_counts (subfolder_sizes a) = object_count a /\
  NoDup (map fst (subfolder_sizes a)).

End FolderScan.

(** ** [format_size] (s3_bucket_sizes_fast.py, s3_bucket_sizes_cli.py,
    s3_bucket_sizes_with_folder.py) *)

Module FormatSize.

(** Decimal rendering of an integer, as [str(int)]. *)
Definition str_of_Z (z : Z) : string := NilEmpty.string_of_int (Z.to_int z).

(** [n / d] rounded to the nearest integer, ties to even ([d > 0]). *)
Definition round_half_even (n d : Z) : Z :=
  let q := (n / d)%Z in
  let r := (n - q * d)%Z in
  match Z.compare (2 * r) d with
  | Lt => q
  | Gt => (q + 1)%Z
  | Eq => if Z.even q then q else (q + 1)%Z
  end.

(** [float(n)]: the nearest binary64 value (53-bit significand, ties to
    even); [OverflowError] when the rounded value reaches [2^1024]. The
    value is kept exactly, as a rational. *)
Definition float_of_int (n : Z) : outcome Q :=
  if (Z.abs n <? 2 ^ 53)%Z then Ok (inject_Z n)
  else
    let e := (Z.log2 (Z.abs n) - 52)%Z in
    let v := (round_half_even n (2 ^ e) * 2 ^ e)%Z in
    if (2 ^ 1024 <=? Z.abs v)%Z then Exc else Ok (inject_Z v).

(** [while size >= 1024 and unit_index < len(units) - 1:
       size /= 1024; unit_index += 1]
    Dividing a binary64 value of at least 1024 by 1024 is exact, so the
    rational value is the float value. [fuel] bounds the iterations. *)
Fixpoint scale (fuel : nat) (nunits : nat) (size : Q) (unit_index : nat) : Q * nat :=
  match fuel with
  | O => (size, unit_index)
  | S f =>
      if Qle_bool 1024 size && (unit_index <? nunits - 1)%nat
      then scale f nunits (size / 1024) (S unit_index)
      else (size, unit_index)
  end.

(** [int(size)]: truncation toward zero. *)
Definition q_trunc (q : Q) : Z := Z.quot (Qnum q) (Zpos (Qden q)).

Definition two_digits (z : Z) : string :=
  if (z <? 10)%Z then "0" ++ str_of_Z z else str_of_Z z.

(** [f"{size:.2f}"] for [size >= 0]: the exact value rounded to two
    decimals, ties to even. *)
Definition fixed2 (q : Q) : string :=
  let m := round_half_even (Qnum q * 100) (Zpos (Qden q)) in
  str_of_Z (m / 100) ++ "." ++ two_digits (m mod 100).

Definition render (units : list string) (size : Q) (unit_index : nat) : string :=
  if (unit_index =? 0)%nat
  then str_of_Z (q_trunc size) ++ " " ++ nth unit_index units ""
  else fixed2 size ++ " " ++ nth unit_index units "".

Definition format_size_units (units : list string) (size_bytes : Z) : outcome string :=
  if (size_bytes =? 0)%Z then Ok "0 B"
  else match float_of_int size_bytes with
       | Exc => Exc
       | Ok size =>
           let '(size', unit_index) := scale (List.length units) (List.length units) size 0 in
           Ok (render units size' unit_index)
       end.

(** [units] of s3_bucket_sizes_fast.py and s3_bucket_sizes_with_folder.py. *)
Definition units_fast : list string := ["B"; "KB"; "MB"; "GB"; "TB"; "PB"].
(** [units] of s3_bucket_sizes_cli.py. *)
Definition units_cli : list string := ["B"; "KB"; "MB"; "GB"; "TB"].

Definition format_size (size_bytes : Z) : outcome string := format_size_units units_fast size_bytes.
Definition format_size_cli (size_bytes : Z) : outcome string := format_size_units units_cli size_bytes.

End FormatSize.

(** ** Metrics path and fan-out (s3_bucket_sizes_fast.py; the same code is
    in s3_bucket_sizes_with_folder.py) *)

Module Metrics.

(** A CloudWatch data point ([Timestamp], [Average]). *)
Record Datapoint := mkDP { Timestamp : Z; Average : Q }.

(** [get_metric_statistics] for [BucketSizeBytes] of a bucket and a
    [StorageType], over the fixed two-day window: the ['Datapoints'] list,
    or an exception. A failure to create the client is a raise of the first
    call. *)
Definition backend := string -> string -> outcome (list Datapoint).

(** Lines printed by the fan-out. *)
Inductive Msg :=
| WarnMetrics (bucket : string)                   (* "Error obteniendo metricas para ..." *)
| ProgressLine (index total : nat) (bucket size : string)
| ErrProcessing (bucket : string).                (* "Error procesando ..." *)

(** [max(dps, key=lambda x: x['Timestamp'])]: the first data point with the
    greatest timestamp; [ValueError] on an empty list. *)
Fixpoint max_from (cur : Datapoint) (l : list Datapoint) : Datapoint :=
  match l with
  | [] => cur
  | x :: r => max_from (if (Timestamp cur <? Timestamp x)%Z then x else cur) r
  end.

Definition py_max_ts (l : list Datapoint) : outcome Datapoint :=
  match l with
  | [] => Exc
  | d :: r => Ok (max_from d r)
  end.

(** [int(latest['Average'])] *)
Definition py_int (q : Q) : Z := FormatSize.q_trunc q.

Definition storage_classes : list string :=
  ["StandardStorage"; "StandardIAStorage"; "ReducedRedundancyStorage";
   "GlacierStorage"; "DeepArchiveStorage"; "IntelligentTieringFAStorage";
   "IntelligentTieringIAStorage"; "IntelligentTieringAAStorage";
   "IntelligentTieringAIAStorage"; "IntelligentTieringDAAStorage"].

(** One round of the fallback loop:
    [if response['Datapoints']: total_size += int(max(...)['Average'])] *)
Definition add_class (cw : backend) (bucket : string) (total : outcome Z) (sc : string)
  : outcome Z :=
  match total with
  | Exc => Exc
  | Ok t =>
      match cw bucket sc with
      | Exc => Exc
      | Ok [] => Ok t
      | Ok dps =>
          match py_max_ts dps with
          | Exc => Exc
          | Ok latest => Ok (t + py_int (Average latest))%Z
          end
      end
  end.

Definition fallback_total (cw : backend) (bucket : string) : outcome Z :=
  fold_left (add_class cw bucket) storage_classes (Ok 0%Z).

(** The body of the [try] block. *)
Definition size_query (cw : backend) (bucket : string) : outcome Z :=
  match cw bucket "StandardStorage" with
  | Exc => Exc
  | Ok [] => fallback_total cw bucket
  | Ok dps =>
      match py_max_ts dps with
      | Exc => Exc
      | Ok latest => Ok (py_int (Average latest))
      end
  end.

(** [get_bucket_size_cloudwatch]: the [except] branch prints a warning and
    returns [(bucket_name, 0)]. *)
Definition get_bucket_size_cloudwatch (cw : backend) (bucket : string)
  : list Msg * (string * Z) :=
  match size_query cw bucket with
  | Ok n => ([], (bucket, n))
  | Exc => ([WarnMetrics bucket], (bucket, 0%Z))
  end.

(** [process_bucket_with_progress]: the progress line calls [format_size],
    which raises when [float(size)] overflows; that exception leaves the
    worker. *)
Definition process_bucket_with_progress (cw : backend) (bucket : string) (index total : nat)
  : list Msg * outcome (string * Z) :=
  let '(log, (name, size)) := get_bucket_size_cloudwatch cw bucket in
  match FormatSize.format_size size with
  | Ok shown => ((log ++ [ProgressLine index total bucket shown])%list, Ok (name, size))
  | Exc => (log, Exc)
  end.

(** Collecting one completed future: [bucket_sizes.append((name, size))], or
    [(bucket_name, 0)] with an error line when [future.result()] raises. *)
Definition collect_one (cw : backend) (bucket_names : list string)
  (st : list Msg * list (string * Z)) (i : nat) : list Msg * list (string * Z) :=
  let bucket := nth i bucket_names "" in
  let '(log, res) := process_bucket_with_progress cw bucket (S i) (List.length bucket_names) in
  match res with
  | Ok r => ((fst st ++ log)%list, (snd st ++ [r])%list)
  | Exc => ((fst st ++ log ++ [ErrProcessing bucket])%list, (snd st ++ [(bucket, 0%Z)])%list)
  end.

(** [bucket_sizes.sort(key=lambda x: x[1], reverse=True)]: a stable sort by
    decreasing size (elements of equal size keep their order). *)
Fixpoint insert_desc (x : string * Z) (l : list (string * Z)) : list (string * Z) :=
  match l with
  | [] => [x]
  | y :: r => if (snd y <? snd x)%Z then x :: y :: r else y :: insert_desc x r
  end.

Definition sort_desc (l : list (string * Z)) : list (string * Z) :=
  fold_left (fun acc x => insert_desc x acc) l [].

(** The fan-out of [main] over a non-empty list of buckets. The pool of
    [min(20, len(bucket_names))] threads runs the submitted tasks; its size
    bounds the parallelism and does not enter the results. [as_completed]
    yields every future exactly once, in completion order: [order] is that
    order, a permutation of the submission indices [0 .. N-1]. *)
Definition fan_out (cw : backend) (bucket_names : list string) (order : list nat)
  : list Msg * list (string * Z) :=
  let '(log, bucket_sizes) := fold_left (collect_one cw bucket_names) order ([], []) in
  (log, sort_desc bucket_sizes).

Definition max_workers (bucket_names : list string) : nat := Nat.min 20 (List.length bucket_names).

(** The contribution of one storage class to the fallback sum: the latest
    data point, or zero when there is none. *)
Definition tier_latest (o : outcome (list Datapoint)) : Z :=
  match o with
  | Ok (d :: r) => py_int (Average (max_from d r))
  | _ => 0%Z
  end.

(** The result of one bucket: the pair [main] collects for it. *)
Definition entry (cw : backend) (bucket_names : list string) (i : nat) : string * Z :=
  let bucket := nth i bucket_names "" in
  match snd (process_bucket_with_progress cw bucket (S i) (List.length bucket_names)) with
  | Ok r => r
  | Exc => (bucket, 0%Z)
  end.

(** The lines one completed future adds. *)
Definition entry_log (cw : backend) (bucket_names : list string) (i : nat) : list Msg :=
  let bucket := nth i bucket_names "" in
  let '(log, res) := process_bucket_with_progress cw bucket (S i) (List.length bucket_names) in
  match res with
  | Ok _ => log
  | Exc => (log ++ [ErrProcessing bucket])%list
  end.

(** The size [main] collects for a bucket. *)
Definition bucket_result (cw : backend) (bucket : string) : Z :=
  let '(_, (_, size)) := get_bucket_size_cloudwatch cw bucket in
  match FormatSize.format_size size with Ok _ => size | Exc => 0%Z end.

(** Descending order of sizes. *)
Definition desc (x y : string * Z) : Prop := (snd y <= snd x)%Z.

(** A backend query of [bucket] raises on the path [size_query] takes. *)
Definition query_fails (cw : backend) (bucket : string) : Prop :=
  cw bucket "StandardStorage" = Exc \/
  (cw bucket "StandardStorage" = Ok [] /\ exists sc, In sc storage_classes /\ cw bucket sc = Exc).

End Metrics.

(** ** CLI-delegated size (s3_bucket_sizes_cli.py: [get_bucket_size_cli]) *)

Module Cli.

(** What [subprocess.run(cmd, capture_output=True, text=True, timeout=5000)]
    does: a completed process, or one of the exceptions the function handles. *)
Inductive RunResult :=
| Completed (returncode : Z) (stdout stderr : string)
| TimeoutExpired
| FileNotFoundError
| OtherError.

Inductive CliMsg :=
| WarnAccess (bucket stderr : string)   (* "Error accediendo al bucket ..." *)
| TimeoutMsg (bucket : string)          (* "Timeout accediendo al bucket ..." *)
| CliMissing                            (* "AWS CLI no esta instalado ..." *)
| ErrBucket (bucket : string).          (* "Error procesando bucket ..." *)

(** The function returns, or ends the process through [sys.exit]. *)
Inductive CliOutcome :=
| Returned (log : list CliMsg) (result : string * Z)
| SysExit (code : Z) (log : list CliMsg).

Definition cli_cmd (bucket_name : string) : list string :=
  ["aws"; "s3"; "ls"; "s3://" ++ bucket_name ++ "/"; "--recursive"; "--summarize"].

(** [\s] of a [str] pattern on the characters U+0000..U+00FF:
    [ \t\n\r\f\v], U+001C..U+001F, U+0085 and U+00A0. *)
Definition is_space (c : ascii) : bool :=
  let n := nat_of_ascii c in
  ((9 <=? n)%nat && (n <=? 13)%nat) || ((28 <=? n)%nat && (n <=? 32)%nat) || (n =? 133)%nat
  || (n =? 160)%nat.

(** [\d] on U+0000..U+00FF. *)
Definition is_digit (c : ascii) : bool :=
  let n := nat_of_ascii c in (48 <=? n)%nat && (n <=? 57)%nat.

(** The longest prefix whose characters satisfy [p], and the rest. *)
Fixpoint span (p : ascii -> bool) (s : string) : string * string :=
  match s with
  | EmptyString => (EmptyString, EmptyString)
  | String c r =>
      if p c then let '(a, b) := span p r in (String c a, b) else (EmptyString, s)
  end.

(** [int()] of a string of ASCII digits. *)
Fixpoint digits_value_acc (acc : Z) (s : string) : Z :=
  match s with
  | EmptyString => acc
  | String c r => digits_value_acc (acc * 10 + Z.of_nat (nat_of_ascii c - 48))%Z r
  end.
Definition digits_value (s : string) : Z := digits_value_acc 0%Z s.

(** [Total Size:\s+(\d+)] anchored at the start of [s]: group 1. As [\s]
    and [\d] share no character, the greedy [\s+] never gives characters
    back to [\d+]. *)
Definition match_total_at (s : string) : option Z :=
  if String.prefix "Total Size:" s then
    let '(ws, r) := span is_space (str_drop 11 s) in
    if String.eqb ws "" then None
    else let '(ds, _) := span is_digit r in
         if String.eqb ds "" then None else Some (digits_value ds)
  else None.

(** [re.search]: the leftmost position where the pattern matches. *)
Fixpoint search_total (s : string) : option Z :=
  match match_total_at s with
  | Some n => Some n
  | None => match s with EmptyString => None | String _ r => search_total r end
  end.

Definition get_bucket_size_cli (run : list string -> RunResult) (bucket_name : string)
  : CliOutcome :=
  match run (cli_cmd bucket_name) with
  | Completed returncode stdout stderr =>
      if negb (returncode =? 0)%Z then Returned [WarnAccess bucket_name stderr] (bucket_name, 0%Z)
      else match search_total stdout with
           | Some n => Returned [] (bucket_name, n)
           | None => Returned [] (bucket_name, 0%Z)
           end
  | TimeoutExpired => Returned [TimeoutMsg bucket_name] (bucket_name, 0%Z)
  | FileNotFoundError => SysExit 1%Z [CliMissing]
  | OtherError => Returned [ErrBucket bucket_name] (bucket_name, 0%Z)
  end.

End Cli.

(** ** Bucket enumeration ([get_all_bucket_names]) *)

Module Enumeration.

Inductive EnumMsg := ErrListing.   (* "Error listando buckets: ..." *)

(** [str.lower()] on ASCII letters. *)
Definition lower (s : string) : string :=
  string_of_list_ascii
    (map (fun c => let n := nat_of_ascii c in
                   if (65 <=? n)%nat && (n <=? 90)%nat then ascii_of_nat (n + 32) else c)
         (list_ascii_of_string s)).

(** [t in s] for strings. *)
Fixpoint contains_sub (t s : string) : bool :=
  String.prefix t s || match s with EmptyString => false | String _ r => contains_sub t r end.

(** [re.match(r'.*db-.*', s)]: ["db-"] occurs before any newline ([.]
    does not match a newline). *)
Fixpoint db_match (s : string) : bool :=
  String.prefix "db-" s ||
  match s with
  | EmptyString => false
  | String c r => negb (Ascii.eqb c "010"%char) && db_match r
  end.

Definition keep_bucket (name : string) : bool :=
  let bucket_name := lower name in
  negb (contains_sub "lifecycle" bucket_name) && negb (contains_sub "logs" bucket_name)
  && negb (db_match bucket_name).

(** [s3.list_buckets()]: the bucket names in the order of the response, or
    an exception (missing or rejected credentials, network). *)
Definition listing := outcome (list string).

(** s3_bucket_sizes_fast.py *)
Definition get_all_bucket_names (resp : listing) : list EnumMsg * list string :=
  match resp with
  | Exc => ([ErrListing], [])
  | Ok names => ([], filter keep_bucket names)
  end.

(** s3_bucket_sizes_cli.py (and s3_bucket_sizes_with_folder.py, whose
    filters are commented out) *)
Definition get_all_bucket_names_cli (resp : listing) : list EnumMsg * list string :=
  match resp with
  | Exc => ([ErrListing], [])
  | Ok names => ([], names)
  end.

End Enumeration.

(** ** Bucket-name validation (s3_folder_sizes.py, s3_folder_sizes_2level.py) *)

Module BucketName.

(** [[a-z0-9.\-_]] *)
Definition in_class (c : ascii) : bool :=
  let n := nat_of_ascii c in
  ((97 <=? n)%nat && (n <=? 122)%nat) || ((48 <=? n)%nat && (n <=? 57)%nat) ||
  (n =? 46)%nat || (n =? 45)%nat || (n =? 95)%nat.

(** [$] without MULTILINE: the end of the string, or just before a final
    newline. *)
Definition dollar (rest : string) : bool :=
  String.eqb rest "" || String.eqb rest (String "010"%char "").

(** [re.match(r'^[a-z0-9.\-_]{3,63}$', s)]: some repetition count [k] in
    [3..63] (tried from 63 down) for which the first [k] characters are in
    the class and [$] holds after them. *)
Definition bucket_regex_match (s : string) : bool :=
  existsb (fun k => (k <=? String.length s)%nat
                    && forallb in_class (list_ascii_of_string (substring 0 k s))
                    && dollar (str_drop k s))
          (rev (seq 3 61)).

Inductive Validation := Valid | ExitInvalid (code : Z).

(** [if not re.match(BUCKET_REGEX, bucket): print(...); sys.exit(1)] *)
Definition validate (bucket : string) : Validation :=
  if bucket_regex_match bucket then Valid else ExitInvalid 1%Z.

End BucketName.

(** ** Command-line argument parsing *)

Module ArgParse.

(** [s.split(c, 1)]: split at the first [c] only. *)
Fixpoint str_split1 (c : ascii) (s : string) : list string :=
  match s with
  | EmptyString => [EmptyString]
  | String x r =>
      if Ascii.eqb x c then [EmptyString; r]
      else match str_split1 c r with
           | h :: t => String x h :: t
           | [] => [String x EmptyString]
           end
  end.

(** [parse_bucket_and_prefix] of s3_folder_sizes.py and
    s3_folder_sizes_2level.py (the two are identical). *)
Definition parse_bucket_and_prefix (arg : string) : string * string :=
  let parts := str_split1 slash arg in
  let bucket := nth 0 parts "" in
  let prefix := if (1 <? List.length parts)%nat then (nth 1 parts "" ++ "/")%string else "" in
  (bucket, prefix).

(** [parse_folder_path] of s3_bucket_sizes_with_folder.py. *)
Definition parse_folder_path (folder_arg : string) : string * string :=
  let folder_arg := if str_startswith "s3://" folder_arg then str_drop 5 folder_arg else folder_arg in
  let parts := str_split1 slash folder_arg in
  if (List.length parts =? 1)%nat then (nth 0 parts "", "")
  else (nth 0 parts "", nth 1 parts "").

End ArgParse.

(** ** [get_bucket_region] (s3_bucket_sizes_fast.py, s3_bucket_sizes_with_folder.py) *)

Module Region.

(** [s3.get_bucket_location(...)['LocationConstraint']]: a string or
    [None], or an exception. *)
Definition get_bucket_region (resp : outcome (option string)) : option string :=
  match resp with
  | Exc => None
  | Ok region =>
      match region with
      | Some r => if String.eqb r "" then Some "us-east-1" else Some r
      | None => Some "us-east-1"
      end
  end.

End Region.

(** ** Subfolder breakdown of [main] in s3_bucket_sizes_with_folder.py *)

Module Breakdown.
Import FolderScan.

(** [sorted(subfolder_sizes.items(), key=lambda x: x[1]['size'], reverse=True)]:
    stable, entries of equal size keep their order. *)
Fixpoint insert_by_size (x : string * SubStat) (l : list (string * SubStat))
  : list (string * SubStat) :=
  match l with
  | [] => [x]
  | y :: r => if (st_size (snd y) <? st_size (snd x))%Z then x :: y :: r
              else y :: insert_by_size x r
  end.

Definition sorted_subfolders (d : list (string * SubStat)) : list (string * SubStat) :=
  fold_left (fun acc x => insert_by_size x acc) d [].

(** Loop state: [displayed_count], [remaining_size], [remaining_count] and
    the rows printed so far (display name, size, count). *)
Record LoopState := mkLS {
  displayed_count : Z; remaining_size : Z; remaining_count : Z;
  rows : list (string * Z * Z) }.

(** The printed row of a subfolder: display name, size, count. *)
Definition shown_row (folder_path : string) (entry : string * SubStat) : string * Z * Z :=
  let '(subfolder_path, data) := entry in
  (display_name folder_path subfolder_path, st_size data, st_count data).

Definition loop_step (folder_path : string) (max_subfolders : Z) (st : LoopState)
  (entry : string * SubStat) : LoopState :=
  let '(subfolder_path, data) := entry in
  if (displayed_count st <? max_subfolders)%Z then
    mkLS (displayed_count st + 1) (remaining_size st) (remaining_count st)
         (rows st ++ [shown_row folder_path (subfolder_path, data)])%list
  else
    mkLS (displayed_count st) (remaining_size st + st_size data)
         (remaining_count st + st_count data) (rows st).

(** The printed rows, and the "... y N subcarpetas mas" line (number of
    hidden subfolders, their size, their object count) printed only when
    [remaining_size > 0]. *)
Definition breakdown (folder_path : string) (max_subfolders : Z) (d : list (string * SubStat))
  : list (string * Z * Z) * option (Z * Z * Z) :=
  let sorted := sorted_subfolders d in
  let st := fold_left (loop_step folder_path max_subfolders) sorted (mkLS 0 0 0 []) in
  (rows st,
   if (0 <? remaining_size st)%Z
   then Some (Z.of_nat (List.length sorted) - max_subfolders, remaining_size st, remaining_count st)%Z
   else None).

End Breakdown.

(** ** Summary of [main] (s3_bucket_sizes_fast.py, s3_bucket_sizes_cli.py) *)

Module Summary.

(** [for bucket_name, size in bucket_sizes: total_size += size] *)
Definition summary_total (bucket_sizes : list (string * Z)) : Z :=
  fold_left (fun t p => (t + snd p)%Z) bucket_sizes 0%Z.

(** The summary rows print [format_size(size)] for every pair. *)
Definition rows_format (fmt : Z -> outcome string) (bucket_sizes : list (string * Z)) : bool :=
  forallb (fun p => match fmt (snd p) with Ok _ => true | Exc => false end) bucket_sizes.

(** How [main] ends: exit status through [sys.exit], an uncaught exception,
    no buckets found, or the summary (sorted pairs and total). *)
Inductive MainOutcome :=
| ExitStatus (code : Z)
| Uncaught
| NoBuckets
| Summary (bucket_sizes : list (string * Z)) (total : Z).

(** The summary printed from the sorted pairs: the rows, then the total. *)
Definition print_summary (fmt : Z -> outcome string) (sorted : list (string * Z)) : MainOutcome :=
  let total_size := summary_total sorted in
  if rows_format fmt sorted then
    match fmt total_size with
    | Exc => Uncaught
    | Ok _ => Summary sorted total_size
    end
  else Uncaught.

(** [main] of s3_bucket_sizes_fast.py: [sts] is the credential check
    [get_caller_identity()], [order] the completion order of the futures. *)
Definition main_fast (sts : outcome unit) (cw : Metrics.backend) (resp : Enumeration.listing)
  (order : list nat) : MainOutcome :=
  match sts with
  | Exc => ExitStatus 1
  | Ok _ =>
      let bucket_names := snd (Enumeration.get_all_bucket_names resp) in
      match bucket_names with
      | [] => NoBuckets
      | _ => print_summary FormatSize.format_size (snd (Metrics.fan_out cw bucket_names order))
      end
  end.

End Summary.

(** ** [check_aws_cli] and [main] of s3_bucket_sizes_cli.py *)

Module MainCli.
Import Cli Summary.

(** [check_aws_cli]: [subprocess.run(['aws', '--version'])]; exceptions other
    than [FileNotFoundError] leave the function. *)
Definition check_aws_cli (run : list string -> RunResult) : outcome bool :=
  match run ["aws"; "--version"] with
  | Completed returncode _ _ => Ok (returncode =? 0)%Z
  | FileNotFoundError => Ok false
  | TimeoutExpired | OtherError => Exc
  end.

(** How the sequential loop ends: all pairs collected, [sys.exit] inside
    [get_bucket_size_cli], or an exception of [format_size(size)]. *)
Inductive LoopEnd :=
| Collected (bucket_sizes : list (string * Z))
| LoopExit (code : Z)
| LoopRaise.

(** [for i, bucket_name in enumerate(bucket_names, 1): name, size =
    get_bucket_size_cli(bucket_name); bucket_sizes.append((name, size));
    print(f"{format_size(size)}")] *)
Fixpoint size_loop (run : list string -> RunResult) (names : list string) : LoopEnd :=
  match names with
  | [] => Collected []
  | b :: r =>
      match get_bucket_size_cli run b with
      | SysExit code _ => LoopExit code
      | Returned _ res =>
          match FormatSize.format_size_cli (snd res) with
          | Exc => LoopRaise
          | Ok _ =>
              match size_loop run r with
              | Collected l => Collected (res :: l)
              | e => e
              end
          end
      end
  end.

(** [main]: the version check, the listing, the loop, the sort and the
    summary. *)
Definition main (run : list string -> RunResult) (resp : Enumeration.listing) : MainOutcome :=
  match check_aws_cli run with
  | Exc => Uncaught
  | Ok false => ExitStatus 1
  | Ok true =>
      let bucket_names := snd (Enumeration.get_all_bucket_names_cli resp) in
      match bucket_names with
      | [] => NoBuckets
      | _ =>
          match size_loop run bucket_names with
          | LoopExit code => ExitStatus code
          | LoopRaise => Uncaught
          | Collected bucket_sizes =>
              print_summary FormatSize.format_size_cli (Metrics.sort_desc bucket_sizes)
          end
      end
  end.

(** The size [get_bucket_size_cli] reports for a bucket, 0 when it exits. *)
Definition cli_size (run : list string -> RunResult) (b : string) : Z :=
  match get_bucket_size_cli run b with
  | Returned _ (_, n) => n
  | SysExit _ _ => 0%Z
  end.

End MainCli.

(** ** Option parsing of [main] in s3_folder_sizes_2level.py *)

Module Options.

Section Options.
(** Python's [int()] on a string: a value, or [ValueError]. *)
Variable py_int_of_str : string -> outcome Z.

(** [for arg_extra in sys.argv[2:]: ...]: later options override earlier
    ones, anything else is ignored. The state is [(depth, output_file)]. *)
Fixpoint parse_options (args : list string) (depth : Z) (output_file : option string)
  : outcome (Z * option string) :=
  match args with
  | [] => Ok (depth, output_file)
  | arg_extra :: r =>
      if str_startswith "--depth=" arg_extra then
        match py_int_of_str (nth 1 (str_split "="%char arg_extra) "") with
        | Exc => Exc
        | Ok d => parse_options r d output_file
        end
      else if str_startswith "--output=" arg_extra then
        parse_options r depth (Some (nth 1 (str_split "="%char arg_extra) ""))
      else parse_options r depth output_file
  end.

(** [if output_file: export_to_csv(...)]: an empty path is false. *)
Definition exports (output_file : option string) : bool :=
  match output_file with Some p => negb (String.eqb p "") | None => false end.

End Options.

End Options.

(** ** Examples on the listing of the spec *)

Definition ex_pages : list page :=
  [Some [mkObj "base/a/x.txt" 10; mkObj "base/a/y.txt" 5;
         mkObj "base/b.txt" 3; mkObj "base/c/z.txt" 2]].

(** Metric backends: data for [StandardStorage]; data only in other
    classes; no data at all; and a backend whose queries for ["bad"] raise. *)
Definition cw_primary : Metrics.backend := fun _ sc =>
  if String.eqb sc "StandardStorage"
  then Ok [Metrics.mkDP 1 (100 # 1); Metrics.mkDP 2 (250 # 1)] else Ok [].

Definition cw_fallback : Metrics.backend := fun _ sc =>
  if String.eqb sc "GlacierStorage" then Ok [Metrics.mkDP 1 (5 # 1); Metrics.mkDP 3 (7 # 1)]
  else if String.eqb sc "StandardIAStorage" then Ok [Metrics.mkDP 2 (40 # 1)]
  else Ok [].

Definition cw_empty : Metrics.backend := fun _ _ => Ok [].

Definition cw_healthy : Metrics.backend := fun b sc =>
  if String.eqb b "big" then cw_primary b sc else cw_fallback b sc.

Definition cw_broken : Metrics.backend := fun b sc =>
  if String.eqb b "bad" then Exc else cw_healthy b sc.

Definition ex_buckets : list string := ["a"; "bad"; "big"; "c"].
Definition ex_order : list nat := [2; 0; 3; 1]%nat.

(** A subprocess stub answering the listing command of a bucket. *)
Definition run_ok (out : string) : list string -> Cli.RunResult :=
  fun _ => Cli.Completed 0 out "".

Example ex_folder_sizes :
  FolderSizes.get_s3_folder_sizes ex_pages "base/" = [("a", 15%Z); ("(root)", 3%Z); ("c", 2%Z)].
Proof. reflexivity. Qed.

(** ** Lemmas on the Python helpers *)

Lemma str_split_no_sep c s : str_contains c s = false -> str_split c s = [s].
Proof.
  induction s as [|x r IH]; simpl; [reflexivity|].
  intros H. apply orb_false_iff in H as [H1 H2].
  rewrite H1, (IH H2). reflexivity.
Qed.

Lemma str_split_sep c s : str_contains c s = true -> (2 <= List.length (str_split c s))%nat.
Proof.
  induction s as [|x r IH]; simpl; [discriminate|].
  intros H. destruct (Ascii.eqb x c) eqn:E.
  - simpl. destruct (str_split c r) eqn:Hs; simpl.
    + destruct r; simpl in Hs; [discriminate|].
      destruct (Ascii.eqb a c), (str_split c r); discriminate.
    + lia.
  - simpl in H. specialize (IH H).
    destruct (str_split c r); simpl in *; lia.
Qed.

Lemma str_split_nonempty c s : str_split c s <> [].
Proof.
  destruct s as [|x r]; simpl; [discriminate|].
  destruct (Ascii.eqb x c); [discriminate|].
  destruct (str_split c r); discriminate.
Qed.

(** ** Lemmas on the enumeration scan *)

Module FolderScanFacts.
Import FolderScan.

Lemma stat_sizes_add k sz d : stat_sizes (stat_add k sz d) = (stat_sizes d + sz)%Z.
Proof. induction d as [|[k' s] r IH]; simpl; [lia|]. destruct (String.eqb k k'); simpl; lia. Qed.

Lemma stat_counts_add k sz d : stat_counts (stat_add k sz d) = (stat_counts d + 1)%Z.
Proof. induction d as [|[k' s] r IH]; simpl; [lia|]. destruct (String.eqb k k'); simpl; lia. Qed.

Lemma stat_add_keys k sz d :
  map fst (stat_add k sz d) = if existsb (String.eqb k) (map fst d) then map fst d else (map fst d ++ [k])%list.
Proof.
  induction d as [|[k' s] r IH]; simpl; [reflexivity|].
  destruct (String.eqb k k') eqn:E; simpl; [reflexivity|].
  rewrite IH. destruct (existsb (String.eqb k) (map fst r)); reflexivity.
Qed.

Lemma stat_add_nodup k sz d : NoDup (map fst d) -> NoDup (map fst (stat_add k sz d)).
Proof.
  intros H. rewrite stat_add_keys.
  destruct (existsb (String.eqb k) (map fst d)) eqn:E; [exact H|].
  apply NoDup_app; [exact H|constructor; [intros []|constructor]|].
  intros x Hx [<-|[]].
  assert (existsb (String.eqb k) (map fst d) = true) as Hc.
  { apply existsb_exists. exists k. split; [exact Hx|apply String.eqb_refl]. }
  congruence.
Qed.


Lemma step_inv fp a o : acc_inv a -> acc_inv (step fp a o).
Proof.
  intros (H1 & H2 & H3). unfold step, acc_inv; simpl.
  rewrite stat_sizes_add, stat_counts_add. split; [lia|split; [lia|]].
  apply stat_add_nodup; exact H3.
Qed.

Lemma fold_step_inv fp objs a : acc_inv a -> acc_inv (fold_left (step fp) objs a).
Proof.
  revert a; induction objs as [|o r IH]; intros a H; simpl; [exact H|].
  apply IH, step_inv, H.
Qed.

Lemma fold_pages_inv fp pages a :
  acc_inv a ->
  acc_inv (fold_left (fun a p => fold_left (step fp) (page_contents p) a) pages a).
Proof.
  revert a; induction pages as [|p r IH]; intros a H; simpl; [exact H|].
  apply IH, fold_step_inv, H.
Qed.

End FolderScanFacts.

(** ** Lemmas on the single-level grouping *)

Lemma dict_sum_add k v d : dict_sum (dict_add k v d) = (dict_sum d + v)%Z.
Proof. induction d as [|[k' v'] r IH]; simpl; [unfold dict_sum; simpl; lia|].
  destruct (String.eqb k k'); unfold dict_sum in *; simpl in *; lia. Qed.

Lemma dict_sum_fold f objs d :
  dict_sum (fold_left (fun d o => dict_add (f o) (Size o) d) objs d)
  = (dict_sum d + fold_right (fun o acc => Size o + acc) 0 objs)%Z.
Proof.
  revert d; induction objs as [|o r IH]; intros d; simpl; [lia|].
  rewrite IH, dict_sum_add. lia.
Qed.


Lemma objects_size_app l1 l2 : objects_size (l1 ++ l2) = (objects_size l1 + objects_size l2)%Z.
Proof. induction l1 as [|o r IH]; simpl; [reflexivity|]. rewrite IH. lia. Qed.

Lemma folder_sizes_fold pages prefix d :
  dict_sum (fold_left (fun d p => fold_left (FolderSizes.add_object prefix) (page_contents p) d) pages d)
  = (dict_sum d + objects_size (all_objects pages))%Z.
Proof.
  revert d; induction pages as [|p r IH]; intros d; simpl; [lia|].
  rewrite IH. unfold all_objects in *. simpl. rewrite objects_size_app.
  unfold FolderSizes.add_object. rewrite dict_sum_fold. unfold objects_size. lia.
Qed.

Lemma folder_sizes_sum pages prefix :
  dict_sum (FolderSizes.get_s3_folder_sizes pages prefix) = objects_size (all_objects pages).
Proof. unfold FolderSizes.get_s3_folder_sizes. rewrite folder_sizes_fold. reflexivity. Qed.

(** The two groupings agree object by object at depth 1. *)
Lemma folder_of_depth1 prefix key :
  FolderSizes.folder_of prefix key = FolderSizes2.folder_of prefix 1 key.
Proof.
  unfold FolderSizes.folder_of, FolderSizes2.folder_of.
  set (s := FolderSizes.strip_prefix prefix key).
  destruct (str_contains slash s) eqn:E.
  - pose proof (str_split_sep _ _ E) as Hl.
    destruct (str_split slash s) as [|x [|y r]] eqn:Hs; simpl in Hl; try lia.
    reflexivity.
  - rewrite (str_split_no_sep _ _ E). reflexivity.
Qed.

(** ** Lemmas on [format_size] *)

Module FormatSizeFacts.
Import FormatSize.

Lemma round_half_even_bounds n d : (0 < d)%Z ->
  (n / d <= round_half_even n d <= n / d + 1)%Z.
Proof.
  intros Hd. unfold round_half_even.
  destruct (Z.compare _ _); [destruct (Z.even _)|..]; lia.
Qed.

Lemma float_of_int_large n f : (2 ^ 53 <= n)%Z -> float_of_int n = Ok f -> 2 ^ 53 <= f.
Proof.
  intros Hn Hf. unfold float_of_int in Hf.
  rewrite Z.abs_eq in Hf by lia.
  destruct (n <? 2 ^ 53)%Z eqn:E; [apply Z.ltb_lt in E; lia|].
  set (e := (Z.log2 n - 52)%Z) in Hf.
  destruct (2 ^ 1024 <=? Z.abs _)%Z; [discriminate|].
  injection Hf as <-.
  assert (He : (0 <= e)%Z).
  { unfold e. assert (53 <= Z.log2 n)%Z by (apply (Z.log2_le_pow2 n 53); lia). lia. }
  assert (Hl : (2 ^ Z.log2 n <= n)%Z) by (apply Z.log2_spec; lia).
  assert (Hq : (2 ^ 52 <= n / 2 ^ e)%Z).
  { apply Z.div_le_lower_bound; [apply Z.pow_pos_nonneg; lia|].
    rewrite <- Z.pow_add_r by lia. unfold e. replace (e + 52)%Z with (Z.log2 n) by (unfold e; lia).
    replace (Z.log2 n - 52 + 52)%Z with (Z.log2 n) by lia. exact Hl. }
  pose proof (round_half_even_bounds n (2 ^ e) ltac:(apply Z.pow_pos_nonneg; lia)) as [Hr _].
  assert (H52 : (2 ^ 53 <= 2 ^ 52 * 2 ^ e)%Z).
  { rewrite <- Z.pow_add_r by lia. apply Z.pow_le_mono_r; [lia|].
    unfold e. assert (53 <= Z.log2 n)%Z by (apply (Z.log2_le_pow2 n 53); lia). lia. }
  assert (2 ^ 52 * 2 ^ e <= round_half_even n (2 ^ e) * 2 ^ e)%Z.
  { apply Z.mul_le_mono_nonneg_r; [apply Z.pow_nonneg; lia|lia]. }
  unfold Qle; simpl. lia.
Qed.

Lemma float_of_int_small n : (0 <= n < 2 ^ 53)%Z -> float_of_int n = Ok (inject_Z n).
Proof.
  intros Hn. unfold float_of_int. rewrite Z.abs_eq by lia.
  destruct (n <? 2 ^ 53)%Z eqn:E; [reflexivity|apply Z.ltb_ge in E; lia].
Qed.

Lemma float_of_int_pos n f : (1 <= n)%Z -> float_of_int n = Ok f -> 1 <= f.
Proof.
  intros Hn Hf. destruct (Z.lt_ge_cases n (2 ^ 53)) as [Hs|Hs].
  - rewrite float_of_int_small in Hf by lia. injection Hf as <-.
    unfold Qle; simpl; lia.
  - pose proof (float_of_int_large n f Hs Hf) as H.
    apply Qle_trans with (2 ^ 53)%Q; [unfold Qle; simpl; lia|exact H].
Qed.

Lemma inject_pow_S m :
  inject_Z (1024 ^ Z.of_nat (S m)) == 1024 * inject_Z (1024 ^ Z.of_nat m).
Proof.
  rewrite Nat2Z.inj_succ, Z.pow_succ_r by lia.
  rewrite inject_Z_mult. reflexivity.
Qed.

Lemma inject_pow_nonzero m : ~ inject_Z (1024 ^ Z.of_nat m) == 0.
Proof.
  assert (0 < 1024 ^ Z.of_nat m)%Z by (apply Z.pow_pos_nonneg; lia).
  unfold Qeq; simpl. lia.
Qed.

(** The loop of [format_size] stops at the first unit whose scaled value is
    below 1024, or at the last unit. *)
Lemma scale_spec fuel L size idx :
  (idx <= L - 1)%nat -> (L - 1 <= fuel + idx)%nat -> 1 <= size ->
  let '(v, k) := scale fuel L size idx in
  (idx <= k <= L - 1)%nat /\
  v == size / inject_Z (1024 ^ Z.of_nat (k - idx)) /\
  (k = idx -> v = size) /\
  1 <= v /\ (v < 1024 \/ k = (L - 1)%nat).
Proof.
  revert size idx. induction fuel as [|fuel IH]; intros size idx H1 H2 H3; simpl.
  - assert (idx = L - 1)%nat by lia. subst idx.
    rewrite Nat.sub_diag. simpl. split; [lia|split; [|split; [auto|split; [exact H3|auto]]]].
    field.
  - destruct (Qle_bool 1024 size && (idx <? L - 1)%nat) eqn:C.
    + apply andb_true_iff in C as [C1 C2]. apply Qle_bool_iff in C1. apply Nat.ltb_lt in C2.
      assert (Hs : 1 <= size / 1024).
      { apply Qle_shift_div_l; [reflexivity|]. rewrite Qmult_1_l. exact C1. }
      specialize (IH (size / 1024) (S idx) ltac:(lia) ltac:(lia) Hs).
      destruct (scale fuel L (size / 1024) (S idx)) as [v k].
      destruct IH as (Hk & Hv & _ & Hge & Hlt).
      split; [lia|split; [|split; [intros; lia|split; [exact Hge|exact Hlt]]]].
      rewrite Hv. replace (k - idx)%nat with (S (k - S idx)) by lia.
      rewrite inject_pow_S. field. apply inject_pow_nonzero.
    + rewrite Nat.sub_diag. simpl.
      split; [lia|split; [field|split; [auto|split; [exact H3|]]]].
      apply andb_false_iff in C as [C|C].
      * left. apply Qnot_le_lt. intros Hc. apply Qle_bool_iff in Hc. congruence.
      * right. apply Nat.ltb_ge in C. lia.
Qed.


Lemma fixed2_bounds v : 1 <= v -> v < 1024 ->
  (100 <= round_half_even (Qnum v * 100) (Zpos (Qden v)) <= 102400)%Z.
Proof.
  intros H1 H2. unfold Qle, Qlt in *; simpl in *.
  set (d := Zpos (Qden v)) in *. assert (Hd : (0 < d)%Z) by (unfold d; lia).
  pose proof (round_half_even_bounds (Qnum v * 100) d Hd) as [Hr1 Hr2].
  assert (100 <= Qnum v * 100 / d)%Z.
  { apply Z.div_le_lower_bound; lia. }
  assert (Qnum v * 100 / d < 102400)%Z.
  { apply Z.div_lt_upper_bound; lia. }
  lia.
Qed.

Lemma format_units_spec units n f :
  (2 <= List.length units)%nat -> (1 <= n)%Z -> float_of_int n = Ok f ->
  exists v k,
    format_size_units units n = Ok (render units v k) /\
    (k < List.length units)%nat /\
    v == f / inject_Z (1024 ^ Z.of_nat k) /\
    1 <= v /\ (v < 1024 \/ k = (List.length units - 1)%nat) /\
    (k = 0%nat -> (n < 1024)%Z /\ render units v k = str_of_Z n ++ " " ++ nth 0 units "") /\
    ((0 < k)%nat -> v < 1024 ->
       (100 <= round_half_even (Qnum v * 100) (Zpos (Qden v)) <= 102400)%Z /\
       render units v k = fixed2 v ++ " " ++ nth k units "").
Proof.
  intros HL Hn Hf.
  pose proof (float_of_int_pos n f Hn Hf) as Hf1.
  pose proof (scale_spec (List.length units) (List.length units) f 0 ltac:(lia) ltac:(lia) Hf1) as Hs.
  unfold format_size_units.
  destruct (n =? 0)%Z eqn:E0; [apply Z.eqb_eq in E0; lia|].
  rewrite Hf.
  destruct (scale (List.length units) (List.length units) f 0) as [v k].
  destruct Hs as (Hk & Hv & Heq & Hge & Hlt).
  rewrite Nat.sub_0_r in Hv.
  exists v, k. split; [reflexivity|].
  split; [lia|split; [exact Hv|split; [exact Hge|split; [exact Hlt|split]]]].
  - intros ->. specialize (Heq eq_refl). subst v.
    destruct Hlt as [Hlt|Hlt]; [|lia].
    destruct (Z.lt_ge_cases n (2 ^ 53)) as [Hs|Hs].
    + rewrite float_of_int_small in Hf by lia. injection Hf as <-.
      unfold Qlt in Hlt; simpl in Hlt. split; [lia|].
      unfold render; simpl. unfold q_trunc; simpl. rewrite Z.quot_1_r. reflexivity.
    + pose proof (float_of_int_large n f Hs Hf) as Hbig.
      exfalso. apply (Qlt_irrefl f). apply Qlt_le_trans with (2 ^ 53)%Q; [|exact Hbig].
      apply Qlt_trans with 1024%Q; [exact Hlt|reflexivity].
  - intros Hk0 Hv1. split; [apply fixed2_bounds; assumption|].
    unfold render. destruct (k =? 0)%nat eqn:E; [apply Nat.eqb_eq in E; lia|reflexivity].
Qed.

End FormatSizeFacts.

(** ** Lemmas on the metrics path and the fan-out *)

Module MetricsFacts.
Import Metrics.

Lemma max_from_in d r : In (max_from d r) (d :: r).
Proof.
  revert d; induction r as [|x r IH]; intros d; simpl; [auto|].
  destruct (Timestamp d <? Timestamp x)%Z.
  - specialize (IH x). simpl in IH. tauto.
  - specialize (IH d). simpl in IH. tauto.
Qed.

Lemma max_from_ge d r : forall x, In x (d :: r) -> (Timestamp x <= Timestamp (max_from d r))%Z.
Proof.
  revert d; induction r as [|y r IH]; intros d x Hx; simpl.
  - destruct Hx as [<-|[]]. lia.
  - destruct (Timestamp d <? Timestamp y)%Z eqn:E.
    + apply Z.ltb_lt in E. destruct Hx as [<-|Hx].
      * specialize (IH y y (or_introl eq_refl)). lia.
      * apply IH. exact Hx.
    + apply Z.ltb_ge in E. destruct Hx as [<-|[<-|Hx]].
      * apply IH. left; reflexivity.
      * specialize (IH d d (or_introl eq_refl)). lia.
      * apply IH. right; exact Hx.
Qed.


Lemma add_class_exc cw b cls : fold_left (add_class cw b) cls Exc = Exc.
Proof. induction cls as [|sc r IH]; simpl; [reflexivity|exact IH]. Qed.

Lemma fold_add_class_ok cw b cls t :
  (forall sc, In sc cls -> cw b sc <> Exc) ->
  fold_left (add_class cw b) cls (Ok t)
  = Ok (t + fold_right (fun sc acc => tier_latest (cw b sc) + acc) 0 cls)%Z.
Proof.
  revert t; induction cls as [|sc r IH]; intros t H; cbn [fold_left fold_right]; [f_equal; lia|].
  assert (Hs : add_class cw b (Ok t) sc = Ok (t + tier_latest (cw b sc))%Z).
  { unfold add_class, tier_latest.
    destruct (cw b sc) as [dps|] eqn:E; [|exfalso; apply (H sc); [left; reflexivity|exact E]].
    destruct dps as [|d ds]; simpl; f_equal; lia. }
  rewrite Hs, IH by (intros; apply H; right; assumption).
  f_equal; lia.
Qed.

Lemma fold_add_class_exc cw b cls o :
  (exists sc, In sc cls /\ cw b sc = Exc) -> fold_left (add_class cw b) cls o = Exc.
Proof.
  revert o; induction cls as [|sc r IH]; intros o [x [Hx Hc]]; [destruct Hx|].
  simpl. destruct Hx as [<-|Hx].
  - unfold add_class at 2. destruct o; [rewrite Hc|]; apply add_class_exc.
  - apply IH. exists x. split; assumption.
Qed.

Lemma get_bucket_size_fails cw b :
  query_fails cw b -> get_bucket_size_cloudwatch cw b = ([WarnMetrics b], (b, 0%Z)).
Proof.
  intros Hf. unfold get_bucket_size_cloudwatch, size_query.
  destruct Hf as [H|[H1 H2]]; rewrite ?H, ?H1; [reflexivity|].
  unfold fallback_total. rewrite fold_add_class_exc by exact H2. reflexivity.
Qed.

Lemma get_bucket_size_name cw b : fst (snd (get_bucket_size_cloudwatch cw b)) = b.
Proof.
  unfold get_bucket_size_cloudwatch. destruct (size_query cw b); reflexivity.
Qed.



Lemma fold_collect cw bs order st :
  fold_left (collect_one cw bs) order st
  = ((fst st ++ flat_map (entry_log cw bs) order)%list, (snd st ++ map (entry cw bs) order)%list).
Proof.
  revert st; induction order as [|i r IH]; intros [log l]; simpl.
  - rewrite !app_nil_r. reflexivity.
  - rewrite IH. unfold collect_one, entry, entry_log.
    destruct (process_bucket_with_progress cw (nth i bs "") (S i) (List.length bs)) as [lg [res|]];
      simpl; rewrite <- !app_assoc; reflexivity.
Qed.

Lemma entry_name cw bs i : fst (entry cw bs i) = nth i bs "".
Proof.
  unfold entry, process_bucket_with_progress.
  pose proof (get_bucket_size_name cw (nth i bs "")) as H.
  destruct (get_bucket_size_cloudwatch cw (nth i bs "")) as [log [name size]].
  simpl in *. destruct (FormatSize.format_size size); simpl; congruence.
Qed.

Lemma map_nth_seq_self {A} (l : list A) d : map (fun i => nth i l d) (seq 0 (List.length l)) = l.
Proof.
  induction l as [|x r IH]; simpl; [reflexivity|]. f_equal.
  rewrite <- seq_shift, map_map. simpl. exact IH.
Qed.

Lemma insert_desc_perm x l : Permutation (insert_desc x l) (x :: l).
Proof.
  induction l as [|y r IH]; simpl; [reflexivity|].
  destruct (snd y <? snd x)%Z; [reflexivity|].
  rewrite IH. apply perm_swap.
Qed.

Lemma sort_desc_perm_acc l acc :
  Permutation (fold_left (fun acc x => insert_desc x acc) l acc) (rev l ++ acc)%list.
Proof.
  revert acc; induction l as [|x r IH]; intros acc; simpl; [reflexivity|].
  rewrite IH, insert_desc_perm, <- app_assoc. simpl.
  reflexivity.
Qed.

Lemma sort_desc_perm l : Permutation (sort_desc l) l.
Proof.
  unfold sort_desc. rewrite sort_desc_perm_acc, app_nil_r.
  symmetry. apply Permutation_rev.
Qed.


Lemma insert_desc_sorted x l : Sorted desc l -> Sorted desc (insert_desc x l).
Proof.
  induction l as [|y r IH]; intros H; simpl; [repeat constructor|].
  destruct (snd y <? snd x)%Z eqn:E.
  - apply Z.ltb_lt in E. constructor; [exact H|constructor; unfold desc; lia].
  - apply Z.ltb_ge in E. inversion H as [|? ? Hr Hh]; subst.
    constructor; [apply IH, Hr|].
    destruct r as [|z r']; simpl; [constructor; unfold desc; lia|].
    inversion Hh; subst.
    destruct (snd z <? snd x)%Z; constructor; unfold desc in *; lia.
Qed.

Lemma sort_desc_sorted l : Sorted desc (sort_desc l).
Proof.
  unfold sort_desc. assert (Sorted desc (@nil (string * Z))) as H0 by constructor.
  revert H0. generalize (@nil (string * Z)).
  induction l as [|x r IH]; intros acc H; simpl; [exact H|].
  apply IH, insert_desc_sorted, H.
Qed.

End MetricsFacts.

(** ** Further lemmas on the fan-out *)

Module FanOutFacts.
Import Metrics MetricsFacts.


Lemma entry_result cw bs i : entry cw bs i = (nth i bs "", bucket_result cw (nth i bs "")).
Proof.
  unfold entry, bucket_result, process_bucket_with_progress.
  pose proof (get_bucket_size_name cw (nth i bs "")) as H.
  destruct (get_bucket_size_cloudwatch cw (nth i bs "")) as [log [name size]].
  simpl in H; subst name. destruct (FormatSize.format_size size); reflexivity.
Qed.

Lemma fold_left_ext' {A B} (f g : A -> B -> A) l a :
  (forall x y, f x y = g x y) -> fold_left f l a = fold_left g l a.
Proof. revert a; induction l as [|y r IH]; intros a H; simpl; [reflexivity|]. rewrite H. apply IH, H. Qed.

Lemma size_query_ext cw cw' b :
  (forall sc, cw b sc = cw' b sc) -> size_query cw b = size_query cw' b.
Proof.
  intros H. unfold size_query, fallback_total. rewrite H.
  destruct (cw' b "StandardStorage") as [[|d ds]|]; [|reflexivity|reflexivity].
  apply fold_left_ext'. intros [t|] sc; unfold add_class; [rewrite H|]; reflexivity.
Qed.

Lemma bucket_result_ext cw cw' b :
  (forall sc, cw b sc = cw' b sc) -> bucket_result cw b = bucket_result cw' b.
Proof.
  intros H. unfold bucket_result, get_bucket_size_cloudwatch. rewrite (size_query_ext cw cw' b H).
  reflexivity.
Qed.

Lemma fan_out_eq cw bs order :
  fan_out cw bs order = (flat_map (entry_log cw bs) order, sort_desc (map (entry cw bs) order)).
Proof. unfold fan_out. rewrite fold_collect. reflexivity. Qed.

Lemma in_fan_out cw bs order x :
  In x (snd (fan_out cw bs order)) <-> exists i, In i order /\ entry cw bs i = x.
Proof.
  rewrite fan_out_eq. simpl. split.
  - intros H. apply (Permutation_in _ (sort_desc_perm _)) in H.
    apply in_map_iff in H as [i [Hi Hx]]. exists i; auto.
  - intros [i [Hi Hx]]. apply (Permutation_in _ (Permutation_sym (sort_desc_perm _))).
    apply in_map_iff. exists i; auto.
Qed.

End FanOutFacts.

(** ** Further lemmas on the scan totals and the validation *)

Module ScanTotals.
Import FolderScan.

Lemma fold_step_totals fp objs a :
  total_size (fold_left (step fp) objs a) = (total_size a + objects_size objs)%Z /\
  object_count (fold_left (step fp) objs a) = (object_count a + Z.of_nat (List.length objs))%Z.
Proof.
  revert a; induction objs as [|o r IH]; intros a; simpl; [lia|].
  destruct (IH (step fp a o)) as [H1 H2]. rewrite H1, H2. simpl. lia.
Qed.

Lemma fold_pages_totals fp pages a :
  let a' := fold_left (fun a p => fold_left (step fp) (page_contents p) a) pages a in
  total_size a' = (total_size a + objects_size (all_objects pages))%Z /\
  object_count a' = (object_count a + Z.of_nat (List.length (all_objects pages)))%Z.
Proof.
  revert a; induction pages as [|p r IH]; intros a; simpl; [lia|].
  destruct (IH (fold_left (step fp) (page_contents p) a)) as [H1 H2].
  destruct (fold_step_totals fp (page_contents p) a) as [H3 H4].
  unfold all_objects in *. simpl. rewrite objects_size_app, length_app.
  split; [rewrite H1, H3|rewrite H2, H4]; lia.
Qed.

End ScanTotals.

Module BucketNameFacts.
Import BucketName.

Lemma substring_drop s k : (k <= String.length s)%nat -> (substring 0 k s ++ str_drop k s)%string = s.
Proof.
  revert k; induction s as [|c r IH]; intros [|k] H; simpl in *; try reflexivity; try lia.
  f_equal. apply IH. lia.
Qed.

Lemma substring_length s k : (k <= String.length s)%nat -> String.length (substring 0 k s) = k.
Proof.
  revert k; induction s as [|c r IH]; intros [|k] H; simpl in *; try reflexivity; try lia.
  f_equal. apply IH. lia.
Qed.

Lemma substring_app t r : substring 0 (String.length t) (t ++ r) = t.
Proof. induction t as [|c t IH]; simpl; [destruct r; reflexivity|f_equal; exact IH]. Qed.

Lemma drop_app t r : str_drop (String.length t) (t ++ r) = r.
Proof. induction t as [|c t IH]; simpl; [reflexivity|exact IH]. Qed.

Lemma length_app_str t r : String.length (t ++ r) = (String.length t + String.length r)%nat.
Proof. induction t as [|c t IH]; simpl; [reflexivity|f_equal; exact IH]. Qed.

Lemma append_empty_r t : (t ++ "")%string = t.
Proof. induction t as [|c t IH]; simpl; [reflexivity|f_equal; exact IH]. Qed.

Lemma in_counts k : In k (rev (seq 3 61)) <-> (3 <= k <= 63)%nat.
Proof. rewrite <- in_rev, in_seq. lia. Qed.

Lemma dollar_iff r : dollar r = true <-> r = "" \/ r = String "010"%char "".
Proof.
  unfold dollar. rewrite orb_true_iff, !String.eqb_eq. reflexivity.
Qed.

(** The language of the bucket-name pattern under [re.match]. *)
Lemma bucket_regex_match_iff s :
  bucket_regex_match s = true <->
  exists t, (s = t \/ s = (t ++ String "010"%char "")%string) /\
            (3 <= String.length t <= 63)%nat /\
            forallb in_class (list_ascii_of_string t) = true.
Proof.
  unfold bucket_regex_match. rewrite existsb_exists. split.
  - intros [k [Hk Hm]]. apply in_counts in Hk.
    apply andb_true_iff in Hm as [Hm Hd]. apply andb_true_iff in Hm as [Hl Hc].
    apply Nat.leb_le in Hl. apply dollar_iff in Hd.
    exists (substring 0 k s). rewrite (substring_length s k Hl).
    split; [|split; [lia|exact Hc]].
    pose proof (substring_drop s k Hl) as Hsd.
    set (t := substring 0 k s) in *.
    destruct Hd as [Hd|Hd]; rewrite Hd in Hsd.
    + left. rewrite append_empty_r in Hsd. symmetry; exact Hsd.
    + right. symmetry; exact Hsd.
  - intros [t [Hs [Hl Hc]]]. exists (String.length t). split; [apply in_counts; lia|].
    assert (Hr : exists r, s = (t ++ r)%string /\ dollar r = true).
    { destruct Hs as [ -> | -> ].
      - exists "". rewrite append_empty_r. split; [reflexivity|apply dollar_iff; auto].
      - eexists; split; [reflexivity|apply dollar_iff; auto]. }
    destruct Hr as [r [-> Hd]].
    rewrite substring_app, drop_app, Hc, Hd, length_app_str.
    rewrite (proj2 (Nat.leb_le _ _)) by lia. reflexivity.
Qed.

End BucketNameFacts.

Module FormatSize64.
Import FormatSize.

(** [float(n)] does not overflow on the 64-bit byte counts of the data model. *)
Lemma float_of_int_64 n : (0 <= n < 2 ^ 64)%Z -> exists f, float_of_int n = Ok f.
Proof.
  intros Hn. unfold float_of_int. rewrite Z.abs_eq by lia.
  destruct (n <? 2 ^ 53)%Z eqn:E; [eauto|]. apply Z.ltb_ge in E.
  set (e := (Z.log2 n - 52)%Z).
  assert (Hlog : (Z.log2 n < 64)%Z) by (apply Z.log2_lt_pow2; lia).
  assert (Hlog2 : (53 <= Z.log2 n)%Z) by (apply (Z.log2_le_pow2 n 53); lia).
  assert (He : (0 <= e <= 11)%Z) by (unfold e; lia).
  assert (Hp : (0 < 2 ^ e <= 2 ^ 11)%Z).
  { split; [apply Z.pow_pos_nonneg; lia|apply Z.pow_le_mono_r; lia]. }
  pose proof (FormatSizeFacts.round_half_even_bounds n (2 ^ e) ltac:(lia)) as [Hr1 Hr2].
  pose proof (Z.mul_div_le n (2 ^ e) ltac:(lia)) as Hm.
  assert (H0 : (0 <= n / 2 ^ e)%Z) by (apply Z.div_pos; lia).
  set (r := round_half_even n (2 ^ e)) in *.
  assert (Hv : (0 <= r * 2 ^ e <= 2 ^ 65)%Z).
  { split; [apply Z.mul_nonneg_nonneg; lia|].
    assert (r * 2 ^ e <= (n / 2 ^ e + 1) * 2 ^ e)%Z by (apply Z.mul_le_mono_nonneg_r; lia).
    assert (2 ^ 65 = 2 ^ 64 * 2)%Z as -> by reflexivity. nia. }
  rewrite Z.abs_eq by lia.
  destruct (2 ^ 1024 <=? r * 2 ^ e)%Z eqn:E2; [|eauto].
  apply Z.leb_le in E2. assert (2 ^ 65 < 2 ^ 1024)%Z by reflexivity. lia.
Qed.

End FormatSize64.

(** * Claims *)

Module Claims.

(** Claim C1: the metrics path returns the latest data point of
    [StandardStorage] when that query has data points; only when its list is
    empty does it sum, over all the enumerated storage classes, the latest
    data point of each class, a class without data points adding zero; when
    every class has no data point the size is 0 and nothing is reported as
    an error. *)
Theorem metrics_primary_then_fallback (cw : Metrics.backend) (b : string) :
  (forall d ds, cw b "StandardStorage" = Ok (d :: ds) ->
     Metrics.get_bucket_size_cloudwatch cw b
       = ([], (b, Metrics.py_int (Metrics.Average (Metrics.max_from d ds)))) /\
     In (Metrics.max_from d ds) (d :: ds) /\
     (forall x, In x (d :: ds) ->
        (Metrics.Timestamp x <= Metrics.Timestamp (Metrics.max_from d ds))%Z)) /\
  (cw b "StandardStorage" = Ok [] ->
     (forall sc, In sc Metrics.storage_classes -> cw b sc <> Exc) ->
     Metrics.get_bucket_size_cloudwatch cw b
       = ([], (b, fold_right (fun sc acc => Metrics.tier_latest (cw b sc) + acc)%Z
                             0%Z Metrics.storage_classes))) /\
  ((forall sc, In sc Metrics.storage_classes -> cw b sc = Ok []) ->
     Metrics.get_bucket_size_cloudwatch cw b = ([], (b, 0%Z))).
Proof.
  split; [|split].
  - intros d ds H. unfold Metrics.get_bucket_size_cloudwatch, Metrics.size_query.
    rewrite H. simpl. split; [reflexivity|].
    split; [apply MetricsFacts.max_from_in|apply MetricsFacts.max_from_ge].
  - intros H1 H2. unfold Metrics.get_bucket_size_cloudwatch, Metrics.size_query,
      Metrics.fallback_total. rewrite H1.
    rewrite MetricsFacts.fold_add_class_ok by exact H2. reflexivity.
  - intros H. unfold Metrics.get_bucket_size_cloudwatch, Metrics.size_query,
      Metrics.fallback_total.
    rewrite (H "StandardStorage") by (left; reflexivity).
    rewrite MetricsFacts.fold_add_class_ok.
    + f_equal. f_equal. simpl.
      rewrite !H by (simpl; tauto). reflexivity.
    + intros sc Hsc. rewrite (H sc Hsc). discriminate.
Qed.

Lemma metrics_primary_then_fallback_witness :
  (cw_primary "b" "StandardStorage" = Ok [Metrics.mkDP 1 (100 # 1); Metrics.mkDP 2 (250 # 1)] /\
   Metrics.get_bucket_size_cloudwatch cw_primary "b" = ([], ("b", 250%Z))) /\
  (cw_fallback "b" "StandardStorage" = Ok [] /\
   (forall sc, In sc Metrics.storage_classes -> cw_fallback "b" sc <> Exc) /\
   Metrics.get_bucket_size_cloudwatch cw_fallback "b" = ([], ("b", 47%Z))) /\
  ((forall sc, In sc Metrics.storage_classes -> cw_empty "b" sc = Ok []) /\
   Metrics.get_bucket_size_cloudwatch cw_empty "b" = ([], ("b", 0%Z))).
Proof.
  assert (Hfb : forall sc, In sc Metrics.storage_classes -> cw_fallback "b" sc <> Exc).
  { intros sc _. unfold cw_fallback.
    destruct (String.eqb sc "GlacierStorage"); [discriminate|].
    destruct (String.eqb sc "StandardIAStorage"); discriminate. }
  assert (He : forall sc, In sc Metrics.storage_classes -> cw_empty "b" sc = Ok []).
  { intros sc _. reflexivity. }
  split; [|split].
  - split; [reflexivity|].
    destruct (proj1 (metrics_primary_then_fallback cw_primary "b") _ _ eq_refl) as [H _].
    rewrite H. reflexivity.
  - split; [reflexivity|split; [exact Hfb|]].
    rewrite (proj1 (proj2 (metrics_primary_then_fallback cw_fallback "b")) eq_refl Hfb).
    reflexivity.
  - split; [exact He|].
    exact (proj2 (proj2 (metrics_primary_then_fallback cw_empty "b")) He).
Defined.

(** Claim C2 (counterexample): on the listing of the spec, neither grouping
    yields the mapping [{"a": 15, "(direct files)": 3, "c": 2}]: the
    enumeration scan keys its entries by full paths ("base/a/") and names the
    direct files "(archivos directos)"; the single-level grouping names them
    "(root)". *)
Lemma folder_grouping_example_counterexample :
  let '(_, _, _, d) := FolderScan.get_folder_size_s3 (Ok ex_pages) "base/" in
  ~ In "a" (map fst d) /\ ~ In "(direct files)" (map fst d) /\
  ~ In "(direct files)" (map fst (FolderSizes.get_s3_folder_sizes ex_pages "base/")).
Proof.
  vm_compute.
  split; [|split]; intros H; repeat (destruct H as [H|H]; [discriminate H|]); exact H.
Qed.

(** Claim C2 (amended): on the listing of the spec, the enumeration scan
    [get_folder_size_s3] of folder "base/" reports total 20 and 4 objects and
    the subfolder map {"base/a/": 15 bytes / 2 objects,
    "base/(archivos directos)": 3 / 1, "base/c/": 2 / 1}, shown by [main]
    under the names "a", "(archivos directos)", "c"; the single-level
    grouping of s3_folder_sizes.py yields {"a": 15, "(root)": 3, "c": 2}. *)
Theorem folder_grouping_example :
  FolderScan.get_folder_size_s3 (Ok ex_pages) "base/"
    = ("base/", 20%Z, 4%Z,
       [("base/a/", FolderScan.mkStat 15 2); ("base/(archivos directos)", FolderScan.mkStat 3 1);
        ("base/c/", FolderScan.mkStat 2 1)]) /\
  map (FolderScan.display_name "base/") ["base/a/"; "base/(archivos directos)"; "base/c/"]
    = ["a"; "(archivos directos)"; "c"] /\
  FolderSizes.get_s3_folder_sizes ex_pages "base/" = [("a", 15%Z); ("(root)", 3%Z); ("c", 2%Z)].
Proof. split; [|split]; reflexivity. Qed.

(** Claim C3: after the enumeration scan, the subfolder sizes add up to the
    reported total size and the subfolder counts to the reported object count,
    each subfolder key occurring once; the totals are those of the listed
    objects (zero when the listing fails). The single-level grouping of
    s3_folder_sizes.py likewise partitions the total size of the objects. *)
Theorem folder_sizes_partition (listing : outcome (list page)) (folder_path : string)
  (pages : list page) (prefix : string) :
  (let '(_, total, count, d) := FolderScan.get_folder_size_s3 listing folder_path in
   FolderScan.stat_sizes d = total /\ FolderScan.stat_counts d = count /\
   NoDup (map fst d) /\
   match listing with
   | Ok ps => total = objects_size (all_objects ps) /\
              count = Z.of_nat (List.length (all_objects ps))
   | Exc => total = 0%Z /\ count = 0%Z
   end) /\
  dict_sum (FolderSizes.get_s3_folder_sizes pages prefix) = objects_size (all_objects pages).
Proof.
  split; [|apply folder_sizes_sum].
  unfold FolderScan.get_folder_size_s3.
  destruct listing as [ps|]; [|simpl; repeat split; constructor].
  set (fp := FolderScan.normalize folder_path).
  pose proof (FolderScanFacts.fold_pages_inv fp ps (FolderScan.mkAcc 0 0 [])
                ltac:(repeat split; constructor)) as (H1 & H2 & H3).
  destruct (ScanTotals.fold_pages_totals fp ps (FolderScan.mkAcc 0 0 [])) as [H4 H5].
  simpl in H4, H5.
  split; [exact H1|split; [exact H2|split; [exact H3|split; [exact H4|exact H5]]]].
Qed.

(** Claim C4 (counterexample): [format_size 1048575] prints "1024.00 KB"
    (in both scripts), a displayed value outside [0, 1024) at the KB unit,
    which is not the last unit. *)
Lemma format_size_1024_counterexample :
  FormatSize.format_size 1048575 = Ok "1024.00 KB" /\
  FormatSize.format_size_cli 1048575 = Ok "1024.00 KB" /\
  nth 1 FormatSize.units_fast "" <> last FormatSize.units_fast "" /\
  nth 1 FormatSize.units_cli "" <> last FormatSize.units_cli "".
Proof. vm_compute. split; [reflexivity|split; [reflexivity|split; discriminate]]. Qed.

(** Claim C4 (amended): [format_size 0] is "0 B". For a byte count n >= 1
    whose conversion [float(n)] does not overflow (every count below 2^64),
    the chosen unit k is the first whose scaled value v = float(n) / 1024^k is
    below 1024, or the last unit; v >= 1. At the byte unit the result is
    "n B" with n < 1024; at a higher unit the value is printed rounded (ties
    to even) to two decimals, and below the last unit the printed number m/100
    satisfies 100 <= m <= 102400, i.e. it lies in [1.00, 1024.00]. *)
Theorem format_size_units_chosen (units : list string) :
  (units = FormatSize.units_fast \/ units = FormatSize.units_cli) ->
  FormatSize.format_size_units units 0 = Ok "0 B" /\
  (forall n, (0 <= n < 2 ^ 64)%Z -> exists f, FormatSize.float_of_int n = Ok f) /\
  (forall n f, (1 <= n)%Z -> FormatSize.float_of_int n = Ok f ->
   exists v k,
     FormatSize.format_size_units units n = Ok (FormatSize.render units v k) /\
     (k < List.length units)%nat /\
     v == f / inject_Z (1024 ^ Z.of_nat k) /\
     1 <= v /\ (v < 1024 \/ k = (List.length units - 1)%nat) /\
     (k = 0%nat -> (n < 1024)%Z /\ FormatSize.render units v k = FormatSize.str_of_Z n ++ " B") /\
     ((0 < k)%nat -> v < 1024 ->
        (100 <= FormatSize.round_half_even (Qnum v * 100) (Zpos (Qden v)) <= 102400)%Z /\
        FormatSize.render units v k = FormatSize.fixed2 v ++ " " ++ nth k units "")).
Proof.
  intros Hu.
  assert (HL : (2 <= List.length units)%nat) by (destruct Hu as [->| ->]; simpl; lia).
  assert (H0 : nth 0 units "" = "B") by (destruct Hu as [->| ->]; reflexivity).
  split; [reflexivity|split; [apply FormatSize64.float_of_int_64|]].
  intros n f Hn Hf.
  destruct (FormatSizeFacts.format_units_spec units n f HL Hn Hf)
    as (v & k & Hr & Hk & Hv & Hge & Hlt & Hk0 & Hk1).
  exists v, k. rewrite <- H0.
  split; [exact Hr|split; [exact Hk|split; [exact Hv|split; [exact Hge|split; [exact Hlt|]]]]].
  split; [exact Hk0|exact Hk1].
Qed.

Lemma format_size_units_chosen_witness :
  FormatSize.format_size_units FormatSize.units_fast 0 = Ok "0 B" /\
  FormatSize.float_of_int 1536 = Ok (inject_Z 1536) /\
  exists v k,
    FormatSize.format_size_units FormatSize.units_fast 1536
      = Ok (FormatSize.render FormatSize.units_fast v k) /\ 1 <= v.
Proof.
  destruct (format_size_units_chosen FormatSize.units_fast (or_introl eq_refl)) as [H0 [_ H]].
  split; [exact H0|split; [reflexivity|]].
  destruct (H 1536%Z (inject_Z 1536) ltac:(lia) eq_refl)
    as (v & k & Hr & _ & _ & Hge & _).
  exists v, k. split; [exact Hr|exact Hge].
Defined.

(** Claim C5: whatever order the futures complete in, the final list of the
    fan-out holds exactly one (bucket, size) pair per input bucket (its names
    are a permutation of the input), each with the size computed for that
    bucket, and it is sorted by decreasing size. *)
Theorem fan_out_one_result_per_bucket (cw : Metrics.backend) (bs : list string)
  (order : list nat) :
  Permutation order (seq 0 (List.length bs)) ->
  Permutation (map fst (snd (Metrics.fan_out cw bs order))) bs /\
  Sorted Metrics.desc (snd (Metrics.fan_out cw bs order)) /\
  (forall b sz, In (b, sz) (snd (Metrics.fan_out cw bs order)) -> sz = Metrics.bucket_result cw b).
Proof.
  intros Hp. split; [|split].
  - rewrite FanOutFacts.fan_out_eq. simpl.
    rewrite (Permutation_map fst (MetricsFacts.sort_desc_perm _)).
    rewrite map_map.
    rewrite (map_ext (fun x => fst (Metrics.entry cw bs x)) (fun i => nth i bs "")
              (MetricsFacts.entry_name cw bs)).
    rewrite (Permutation_map (fun i => nth i bs "") Hp).
    rewrite MetricsFacts.map_nth_seq_self. reflexivity.
  - rewrite FanOutFacts.fan_out_eq. apply MetricsFacts.sort_desc_sorted.
  - intros b sz H. apply FanOutFacts.in_fan_out in H as [i [_ Hi]].
    rewrite FanOutFacts.entry_result in Hi. injection Hi as <- <-. reflexivity.
Qed.

Lemma fan_out_one_result_per_bucket_witness :
  Permutation ex_order (seq 0 (List.length ex_buckets)) /\
  snd (Metrics.fan_out cw_broken ex_buckets ex_order)
    = [("big", 250%Z); ("a", 47%Z); ("c", 47%Z); ("bad", 0%Z)] /\
  Sorted Metrics.desc (snd (Metrics.fan_out cw_broken ex_buckets ex_order)).
Proof.
  assert (Hp : Permutation ex_order (seq 0 (List.length ex_buckets))).
  { unfold ex_order, ex_buckets. simpl.
    apply (Permutation_trans (l' := [0; 2; 3; 1]%nat)); [apply perm_swap|].
    apply perm_skip. apply (Permutation_trans (l' := [2; 1; 3]%nat)).
    - apply perm_skip. apply perm_swap.
    - apply perm_swap. }
  split; [exact Hp|split; [vm_compute; reflexivity|]].
  exact (proj1 (proj2 (fan_out_one_result_per_bucket cw_broken ex_buckets ex_order Hp))).
Defined.

(** Claim C6: the CLI path runs [aws s3 ls s3://<bucket>/ --recursive
    --summarize], and its result depends only on what that command does; a
    missing tool ends the process with status 1; a timeout, a non-zero exit
    status or a missing "Total Size:" line give (bucket, 0) and the function
    returns; a successful run returns the number after "Total Size:". *)
Theorem cli_size_outcomes (run : list string -> Cli.RunResult) (b : string) :
  Cli.cli_cmd b = ["aws"; "s3"; "ls"; "s3://" ++ b ++ "/"; "--recursive"; "--summarize"] /\
  (forall run', run' (Cli.cli_cmd b) = run (Cli.cli_cmd b) ->
     Cli.get_bucket_size_cli run' b = Cli.get_bucket_size_cli run b) /\
  (run (Cli.cli_cmd b) = Cli.FileNotFoundError ->
     Cli.get_bucket_size_cli run b = Cli.SysExit 1 [Cli.CliMissing]) /\
  (run (Cli.cli_cmd b) = Cli.TimeoutExpired ->
     Cli.get_bucket_size_cli run b = Cli.Returned [Cli.TimeoutMsg b] (b, 0%Z)) /\
  (forall rc out err, run (Cli.cli_cmd b) = Cli.Completed rc out err -> rc <> 0%Z ->
     Cli.get_bucket_size_cli run b = Cli.Returned [Cli.WarnAccess b err] (b, 0%Z)) /\
  (forall out err, run (Cli.cli_cmd b) = Cli.Completed 0 out err ->
     Cli.search_total out = None -> Cli.get_bucket_size_cli run b = Cli.Returned [] (b, 0%Z)) /\
  (forall out err n, run (Cli.cli_cmd b) = Cli.Completed 0 out err ->
     Cli.search_total out = Some n -> Cli.get_bucket_size_cli run b = Cli.Returned [] (b, n)).
Proof.
  unfold Cli.get_bucket_size_cli.
  split; [reflexivity|split; [intros run' ->; reflexivity|]].
  split; [intros ->; reflexivity|split; [intros ->; reflexivity|]].
  split; [|split].
  - intros rc out err -> Hrc. apply Z.eqb_neq in Hrc. rewrite Hrc. reflexivity.
  - intros out err -> Hs. simpl. rewrite Hs. reflexivity.
  - intros out err n -> Hs. simpl. rewrite Hs. reflexivity.
Qed.

Lemma cli_size_outcomes_witness :
  Cli.search_total "2024-01-01 00:00:00 12 a.txt
Total Objects: 1
   Total Size: 1234" = Some 1234%Z /\
  Cli.get_bucket_size_cli (run_ok "2024-01-01 00:00:00 12 a.txt
Total Objects: 1
   Total Size: 1234") "bk" = Cli.Returned [] ("bk", 1234%Z) /\
  Cli.search_total "" = None /\
  Cli.get_bucket_size_cli (run_ok "") "bk" = Cli.Returned [] ("bk", 0%Z) /\
  Cli.get_bucket_size_cli (fun _ => Cli.FileNotFoundError) "bk" = Cli.SysExit 1 [Cli.CliMissing].
Proof.
  destruct (cli_size_outcomes (run_ok "2024-01-01 00:00:00 12 a.txt
Total Objects: 1
   Total Size: 1234") "bk") as (_ & _ & _ & _ & _ & _ & Hn).
  destruct (cli_size_outcomes (run_ok "") "bk") as (_ & _ & _ & _ & _ & He & _).
  destruct (cli_size_outcomes (fun _ => Cli.FileNotFoundError) "bk") as (_ & _ & Hf & _).
  split; [vm_compute; reflexivity|].
  split; [apply (Hn _ "" 1234%Z eq_refl); vm_compute; reflexivity|].
  split; [reflexivity|].
  split; [apply (He _ "" eq_refl); reflexivity|].
  apply Hf. reflexivity.
Defined.

(** Claim C7: when a backend query for one bucket raises, the fan-out still
    completes: that bucket is reported with size 0 and a warning line, and
    every other bucket is reported with the same result as with a backend
    that agrees on that bucket's queries (its own data alone decides it). *)
Theorem metrics_failure_isolated (cw cw' : Metrics.backend) (bs : list string)
  (order : list nat) (b : string) :
  Permutation order (seq 0 (List.length bs)) ->
  In b bs ->
  Metrics.query_fails cw b ->
  (forall b' sc, b' <> b -> cw b' sc = cw' b' sc) ->
  In (b, 0%Z) (snd (Metrics.fan_out cw bs order)) /\
  In (Metrics.WarnMetrics b) (fst (Metrics.fan_out cw bs order)) /\
  (forall b' sz, b' <> b ->
     In (b', sz) (snd (Metrics.fan_out cw bs order)) <->
     In (b', sz) (snd (Metrics.fan_out cw' bs order))).
Proof.
  intros Hp Hb Hf Hag.
  pose proof (MetricsFacts.get_bucket_size_fails cw b Hf) as Hg.
  destruct (In_nth bs b "" Hb) as [i [Hi Hnth]].
  assert (Hio : In i order).
  { apply (Permutation_in _ (Permutation_sym Hp)). apply in_seq. lia. }
  split; [|split].
  - apply FanOutFacts.in_fan_out. exists i. split; [exact Hio|].
    rewrite FanOutFacts.entry_result, Hnth. unfold Metrics.bucket_result. rewrite Hg. reflexivity.
  - rewrite FanOutFacts.fan_out_eq. simpl. apply in_flat_map. exists i. split; [exact Hio|].
    unfold Metrics.entry_log, Metrics.process_bucket_with_progress. rewrite Hnth, Hg.
    simpl. left. reflexivity.
  - intros b' sz Hne. rewrite !FanOutFacts.in_fan_out.
    split; intros [j [Hj He]]; exists j; split; try exact Hj;
      rewrite FanOutFacts.entry_result in *; injection He as Hn Hs;
      rewrite Hn in *; f_equal; rewrite <- Hs;
      [symmetry|]; apply FanOutFacts.bucket_result_ext; intros sc; apply Hag; exact Hne.
Qed.

Lemma metrics_failure_isolated_witness :
  In ("bad", 0%Z) (snd (Metrics.fan_out cw_broken ex_buckets ex_order)) /\
  In (Metrics.WarnMetrics "bad") (fst (Metrics.fan_out cw_broken ex_buckets ex_order)) /\
  (In ("big", 250%Z) (snd (Metrics.fan_out cw_broken ex_buckets ex_order)) <->
   In ("big", 250%Z) (snd (Metrics.fan_out cw_healthy ex_buckets ex_order))).
Proof.
  assert (Hp : Permutation ex_order (seq 0 (List.length ex_buckets))).
  { exact (proj1 fan_out_one_result_per_bucket_witness). }
  destruct (metrics_failure_isolated cw_broken cw_healthy ex_buckets ex_order "bad" Hp
              ltac:(simpl; tauto) (or_introl eq_refl)
              ltac:(intros b' sc Hne; unfold cw_broken;
                    destruct (String.eqb_spec b' "bad"); [contradiction|reflexivity]))
    as [H1 [H2 H3]].
  split; [exact H1|split; [exact H2|apply H3; discriminate]].
Defined.

(** Claim C8: bucket enumeration returns the names of the listing in order
    (after the exclusion filter of s3_bucket_sizes_fast.py, unfiltered in
    s3_bucket_sizes_cli.py); an empty listing, or one filtered out entirely,
    gives an empty list with no error line, while a failed listing (e.g. an
    authentication failure) prints an error line, so the two outcomes
    differ, although the returned list is empty in both. *)
Theorem enumeration_empty_vs_failure (names : list string) :
  Enumeration.get_all_bucket_names (Ok names) = ([], filter Enumeration.keep_bucket names) /\
  Enumeration.get_all_bucket_names_cli (Ok names) = ([], names) /\
  ((forall n, In n names -> Enumeration.keep_bucket n = false) ->
     Enumeration.get_all_bucket_names (Ok names) = ([], [])) /\
  Enumeration.get_all_bucket_names_cli (Ok []) = ([], []) /\
  Enumeration.get_all_bucket_names Exc = ([Enumeration.ErrListing], []) /\
  Enumeration.get_all_bucket_names_cli Exc = ([Enumeration.ErrListing], []) /\
  Enumeration.get_all_bucket_names Exc <> Enumeration.get_all_bucket_names (Ok names) /\
  Enumeration.get_all_bucket_names_cli Exc <> Enumeration.get_all_bucket_names_cli (Ok names).
Proof.
  split; [reflexivity|split; [reflexivity|split]].
  - intros H. simpl. f_equal.
    induction names as [|n r IH]; simpl; [reflexivity|].
    rewrite (H n (or_introl eq_refl)). apply IH. intros x Hx. apply H. right; exact Hx.
  - split; [reflexivity|split; [reflexivity|split; [reflexivity|]]].
    split; simpl; intros H; injection H; discriminate.
Qed.

Lemma enumeration_empty_vs_failure_witness :
  Enumeration.get_all_bucket_names (Ok ["app-logs"; "db-01"; "Lifecycle-x"]) = ([], []) /\
  Enumeration.get_all_bucket_names (Ok ["data"; "app-logs"; "media"]) = ([], ["data"; "media"]).
Proof.
  split.
  - apply (proj1 (proj2 (proj2 (enumeration_empty_vs_failure ["app-logs"; "db-01"; "Lifecycle-x"])))).
    intros n Hn. simpl in Hn.
    destruct Hn as [<-|[<-|[<-|[]]]]; vm_compute; reflexivity.
  - exact (proj1 (enumeration_empty_vs_failure ["data"; "app-logs"; "media"])).
Defined.

(** Claim C9: the validation of s3_folder_sizes.py and
    s3_folder_sizes_2level.py accepts a bucket name exactly when
    [re.match(r'^[a-z0-9.\-_]{3,63}$', name)] succeeds, that is when the name
    is 3 to 63 characters of [a-z0-9.-_], possibly followed by one final
    newline (Python's [$] also matches before a trailing newline), and exits
    with status 1 otherwise; "AB_invalid_UPPER!" is rejected and
    "valid-bucket.name_123" accepted. *)
Theorem bucket_name_validation (name : string) :
  (BucketName.validate name = BucketName.Valid <->
   exists t, (name = t \/ name = (t ++ String "010"%char "")%string) /\
             (3 <= String.length t <= 63)%nat /\
             forallb BucketName.in_class (list_ascii_of_string t) = true) /\
  (BucketName.validate name <> BucketName.Valid ->
   BucketName.validate name = BucketName.ExitInvalid 1) /\
  BucketName.validate "AB_invalid_UPPER!" = BucketName.ExitInvalid 1 /\
  BucketName.validate "valid-bucket.name_123" = BucketName.Valid.
Proof.
  split; [|split; [|split; reflexivity]].
  - rewrite <- BucketNameFacts.bucket_regex_match_iff. unfold BucketName.validate.
    destruct (BucketName.bucket_regex_match name); split; congruence.
  - unfold BucketName.validate. destruct (BucketName.bucket_regex_match name); congruence.
Qed.

Lemma bucket_name_validation_witness :
  BucketName.validate "valid-bucket.name_123" = BucketName.Valid /\
  BucketName.validate "AB_invalid_UPPER!" = BucketName.ExitInvalid 1 /\
  exists t, ("valid-bucket.name_123" = t \/ "valid-bucket.name_123" = (t ++ String "010"%char "")%string) /\
            (3 <= String.length t <= 63)%nat /\
            forallb BucketName.in_class (list_ascii_of_string t) = true.
Proof.
  destruct (bucket_name_validation "valid-bucket.name_123") as [Hiff [_ [H1 H2]]].
  split; [exact H2|split; [exact H1|]].
  apply Hiff. exact H2.
Defined.

(** Claim C10: the single-level grouping of s3_folder_sizes.py and the
    depth grouping of s3_folder_sizes_2level.py at depth 1 give the same
    dict (same keys, same order, same sizes) on every listing and prefix. *)
Theorem single_level_is_depth_one (pages : list page) (prefix : string) :
  FolderSizes.get_s3_folder_sizes pages prefix = FolderSizes2.get_s3_folder_sizes pages prefix 1.
Proof.
  unfold FolderSizes.get_s3_folder_sizes, FolderSizes2.get_s3_folder_sizes.
  apply FanOutFacts.fold_left_ext'. intros d p.
  apply FanOutFacts.fold_left_ext'. intros d' o.
  unfold FolderSizes.add_object, FolderSizes2.add_object.
  rewrite folder_of_depth1. reflexivity.
Qed.

End Claims.

(** * Further properties of the scripts *)

Module Extras.
Import ArgParse BucketNameFacts.

Lemma str_split1_spec c s :
  (str_contains c s = false /\ str_split1 c s = [s]) \/
  (exists a b, str_contains c a = false /\ s = (a ++ String c b)%string /\
               str_split1 c s = [a; b]).
Proof.
  induction s as [|x r IH]; simpl; [left; auto|].
  destruct (Ascii.eqb x c) eqn:E.
  - right. exists EmptyString, r. apply Ascii.eqb_eq in E. subst. auto.
  - destruct IH as [[H1 H2]|[a [b [H1 [H2 H3]]]]].
    + left. rewrite H1, H2. auto.
    + right. exists (String x a), b. simpl. rewrite E, H1, H3, H2. auto.
Qed.

Lemma str_endswith_app t x : str_endswith t (x ++ t) = true.
Proof.
  unfold str_endswith. rewrite length_app_str.
  replace (String.length x + String.length t - String.length t)%nat with (String.length x) by lia.
  rewrite drop_app, String.eqb_refl. apply andb_true_intro; split; [|reflexivity].
  apply Nat.leb_le. lia.
Qed.

Lemma str_app_assoc a b c : (a ++ (b ++ c))%string = ((a ++ b) ++ c)%string.
Proof. induction a as [|x r IH]; simpl; [reflexivity|]. rewrite IH. reflexivity. Qed.

Lemma str_contains_app c a b :
  str_contains c (a ++ b) = str_contains c a || str_contains c b.
Proof. induction a as [|x r IH]; simpl; [reflexivity|]. rewrite IH. apply orb_assoc. Qed.

(** X1 *)
(** [parse_bucket_and_prefix] splits at the first ['/']: the bucket holds no
    ['/']; with a ['/'] in the argument, the bucket, a ['/'] and the prefix
    give back the argument followed by ['/'] and the prefix ends with ['/'];
    without one, the bucket is the whole argument and the prefix is empty. *)
Theorem parse_bucket_and_prefix_split arg :
  let '(bucket, prefix) := parse_bucket_and_prefix arg in
  str_contains slash bucket = false /\
  (if str_contains slash arg
   then (bucket ++ "/" ++ prefix)%string = (arg ++ "/")%string /\ str_endswith "/" prefix = true
   else bucket = arg /\ prefix = "").
Proof.
  unfold parse_bucket_and_prefix.
  destruct (str_split1_spec slash arg) as [[H1 H2]|[a [b [H1 [H2 H3]]]]].
  - rewrite H2, H1. simpl. auto.
  - rewrite H3. simpl. split; [exact H1|].
    rewrite H2, str_contains_app. simpl. rewrite orb_true_r.
    split; [|apply str_endswith_app].
    rewrite <- str_app_assoc. reflexivity.
Qed.

Lemma prefix_app a b : String.prefix a (a ++ b) = true.
Proof.
  induction a as [|x r IH]; simpl; [destruct b; reflexivity|].
  destruct (ascii_dec x x) as [_|n]; [exact IH|congruence].
Qed.

Lemma startswith_app a b : str_startswith a (a ++ b) = true.
Proof. apply prefix_app. Qed.

(** X2 *)
(** [parse_folder_path] removes a leading ["s3://"] and splits the rest at
    its first ['/']: the bucket holds no ['/'], and the bucket, a ['/'] and
    the path give back the rest; without a ['/'] the bucket is the rest and
    the path is empty. *)
Theorem parse_folder_path_split arg :
  let rest := if str_startswith "s3://" arg then str_drop 5 arg else arg in
  let '(bucket, path) := parse_folder_path arg in
  str_contains slash bucket = false /\
  (if str_contains slash rest
   then (bucket ++ "/" ++ path)%string = rest
   else bucket = rest /\ path = "").
Proof.
  unfold parse_folder_path. cbv zeta.
  set (rest := if str_startswith "s3://" arg then str_drop 5 arg else arg).
  destruct (str_split1_spec slash rest) as [[H1 H2]|[a [b [H1 [H2 H3]]]]].
  - rewrite H2, H1. simpl. auto.
  - rewrite H3. simpl. split; [exact H1|].
    rewrite H2, str_contains_app. simpl. rewrite orb_true_r. reflexivity.
Qed.

(** X3 *)
(** Only one ["s3://"] is removed: an argument written with it parses as
    the same argument written without it, when that one does not itself
    start with ["s3://"]. *)
Theorem parse_folder_path_scheme x :
  str_startswith "s3://" x = false ->
  parse_folder_path ("s3://" ++ x) = parse_folder_path x.
Proof.
  intros H. unfold parse_folder_path. rewrite startswith_app, H.
  change 5%nat with (String.length "s3://"). rewrite drop_app. reflexivity.
Qed.

Lemma parse_folder_path_scheme_witness :
  str_startswith "s3://" "b/x" = false /\
  parse_folder_path ("s3://" ++ "b/x") = parse_folder_path "b/x".
Proof.
  split; [reflexivity|]. apply parse_folder_path_scheme. reflexivity.
Defined.

Lemma dict_add_keys k v d x :
  In x (map fst (dict_add k v d)) <-> x = k \/ In x (map fst d).
Proof.
  induction d as [|[k' v'] r IH]; simpl; [intuition congruence|].
  destruct (String.eqb k k') eqn:E; simpl.
  - apply String.eqb_eq in E. subst. intuition congruence.
  - rewrite IH. intuition congruence.
Qed.

Lemma dict_add_nodup k v d : NoDup (map fst d) -> NoDup (map fst (dict_add k v d)).
Proof.
  induction d as [|[k' v'] r IH]; simpl; intros H; [repeat constructor; auto|].
  inversion H as [|? ? Hn Hr]; subst.
  destruct (String.eqb k k') eqn:E; simpl; constructor; auto.
  rewrite dict_add_keys. apply String.eqb_neq in E. intros [->|Hin]; auto.
Qed.

Lemma dict_fold_keys f objs d x :
  In x (map fst (fold_left (fun d o => dict_add (f o) (Size o) d) objs d)) <->
  In x (map fst d) \/ exists o, In o objs /\ f o = x.
Proof.
  revert d; induction objs as [|o r IH]; intros d; simpl.
  - split; [auto|]. intros [H|[o [[] _]]]; exact H.
  - rewrite IH, dict_add_keys. split.
    + intros [[->|H]|[o' [H1 H2]]]; eauto.
    + intros [H|[o' [[<-|H1] H2]]]; eauto.
Qed.

Lemma dict_fold_nodup f objs d :
  NoDup (map fst d) -> NoDup (map fst (fold_left (fun d o => dict_add (f o) (Size o) d) objs d)).
Proof.
  revert d; induction objs as [|o r IH]; intros d H; simpl; [exact H|].
  apply IH, dict_add_nodup, H.
Qed.

Lemma depth_pages_eq pages prefix depth d :
  fold_left (fun d p => fold_left (FolderSizes2.add_object prefix depth) (page_contents p) d) pages d
  = fold_left (fun d o => dict_add (FolderSizes2.folder_of prefix depth (Key o)) (Size o) d)
              (all_objects pages) d.
Proof.
  revert d; induction pages as [|p r IH]; intros d; simpl; [reflexivity|].
  unfold all_objects in *. simpl. rewrite fold_left_app, IH. reflexivity.
Qed.

(** X4 *)
(** The depth grouping of s3_folder_sizes_2level.py partitions the listing:
    its sizes add up to the size of all objects, its keys are distinct,
    and its keys are exactly the group keys of the listed objects. *)
Theorem depth_grouping_partition pages prefix depth :
  let d := FolderSizes2.get_s3_folder_sizes pages prefix depth in
  dict_sum d = objects_size (all_objects pages) /\
  NoDup (map fst d) /\
  (forall k, In k (map fst d) <->
             exists o, In o (all_objects pages) /\ FolderSizes2.folder_of prefix depth (Key o) = k).
Proof.
  cbv zeta. unfold FolderSizes2.get_s3_folder_sizes. rewrite depth_pages_eq.
  split; [|split].
  - rewrite dict_sum_fold. unfold objects_size. simpl. lia.
  - apply dict_fold_nodup. constructor.
  - intros k. rewrite dict_fold_keys. simpl. split; [intros [[]|H]; exact H|auto].
Qed.

Lemma prefix_empty s : String.prefix "" s = true.
Proof. destruct s; reflexivity. Qed.

Lemma prefix_app_cong a b c : String.prefix (a ++ b) (a ++ c) = String.prefix b c.
Proof.
  induction a as [|x r IH]; simpl; [reflexivity|].
  destruct (ascii_dec x x) as [_|n]; [exact IH|congruence].
Qed.

Lemma str_join_cons sep x y r : str_join sep (x :: y :: r) = (x ++ sep ++ str_join sep (y :: r))%string.
Proof. reflexivity. Qed.

Lemma str_join_split c s : str_join (String c "") (str_split c s) = s.
Proof.
  induction s as [|x r IH]; simpl; [reflexivity|].
  pose proof (str_split_nonempty c r) as Hne.
  destruct (Ascii.eqb x c) eqn:E.
  - apply Ascii.eqb_eq in E. subst.
    destruct (str_split c r) as [|h t]; [congruence|]. rewrite str_join_cons, IH. reflexivity.
  - destruct (str_split c r) as [|h [|h' t]]; [congruence| |]; simpl in *; rewrite IH; reflexivity.
Qed.

Lemma str_join_firstn_prefix sep k l :
  String.prefix (str_join sep (firstn k l)) (str_join sep l) = true.
Proof.
  revert k; induction l as [|x r IH]; intros [|k]; try reflexivity.
  - apply prefix_empty.
  - change (firstn (S k) (x :: r)) with (x :: firstn k r).
    destruct r as [|y r'].
    + rewrite firstn_nil. change (String.prefix x x = true).
      rewrite <- (append_empty_r x) at 2. apply prefix_app.
    + rewrite (str_join_cons sep x y r'). specialize (IH k).
      destruct (firstn k (y :: r')) as [|z f] eqn:Hf.
      * change (String.prefix x (x ++ sep ++ str_join sep (y :: r'))%string = true).
        apply prefix_app.
      * rewrite str_join_cons, prefix_app_cong, prefix_app_cong. exact IH.
Qed.

(** X5 *)
(** Whatever the depth, also zero or negative, the group key of a key whose
    remainder after the prefix holds a ['/'] is a leading part of that
    remainder; a remainder without ['/'] is grouped under ["(root)"]. *)
Theorem depth_key_leading_part prefix depth key :
  let s := FolderSizes.strip_prefix prefix key in
  if str_contains slash s
  then String.prefix (FolderSizes2.folder_of prefix depth key) s = true
  else FolderSizes2.folder_of prefix depth key = "(root)".
Proof.
  cbv zeta. unfold FolderSizes2.folder_of.
  set (s := FolderSizes.strip_prefix prefix key).
  destruct (str_contains slash s) eqn:E.
  - pose proof (str_split_sep _ _ E) as Hl.
    destruct (List.length (str_split slash s) =? 1)%nat eqn:E1; [apply Nat.eqb_eq in E1; lia|].
    unfold py_slice_to. set (k := Z.to_nat _).
    pose proof (str_join_firstn_prefix (String slash "") k (str_split slash s)) as H.
    rewrite str_join_split in H. exact H.
  - rewrite (str_split_no_sep _ _ E). reflexivity.
Qed.

(** X6 *)
(** A depth at least the number of segments of the remainder keeps the whole
    remainder as group key: no object below the prefix is cut. *)
Theorem depth_key_full prefix depth key :
  let s := FolderSizes.strip_prefix prefix key in
  str_contains slash s = true ->
  (Z.of_nat (List.length (str_split slash s)) <= depth)%Z ->
  FolderSizes2.folder_of prefix depth key = s.
Proof.
  cbv zeta. intros E Hd. unfold FolderSizes2.folder_of.
  set (s := FolderSizes.strip_prefix prefix key) in *.
  pose proof (str_split_sep _ _ E) as Hl.
  destruct (List.length (str_split slash s) =? 1)%nat eqn:E1; [apply Nat.eqb_eq in E1; lia|].
  unfold py_slice_to. destruct (depth <? 0)%Z eqn:Ed; [apply Z.ltb_lt in Ed; lia|].
  rewrite firstn_all2 by lia. apply str_join_split.
Qed.

Lemma depth_key_full_witness :
  str_contains slash (FolderSizes.strip_prefix "data/" "data/a/b/c.txt") = true /\
  (Z.of_nat (List.length (str_split slash (FolderSizes.strip_prefix "data/" "data/a/b/c.txt"))) <= 5)%Z /\
  FolderSizes2.folder_of "data/" 5 "data/a/b/c.txt" = FolderSizes.strip_prefix "data/" "data/a/b/c.txt".
Proof.
  split; [reflexivity|]. split; [vm_compute; discriminate|].
  apply depth_key_full; [reflexivity|vm_compute; discriminate].
Defined.


Lemma append_nonempty x c r : (x ++ String c r)%string <> ""%string.
Proof. destruct x; discriminate. Qed.

(** X8 *)
(** [get_folder_size_s3] normalises its folder to the empty string or a
    string ending with ['/'], adds at most one ['/'], and normalising twice
    changes nothing. *)
Theorem normalize_ends_with_slash folder_path :
  let n := FolderScan.normalize folder_path in
  (n = "" \/ str_endswith "/" n = true) /\
  (n = folder_path \/ n = (folder_path ++ "/")%string) /\
  FolderScan.normalize n = n.
Proof.
  cbv zeta. unfold FolderScan.normalize.
  destruct (String.eqb folder_path "") eqn:E0; simpl.
  - apply String.eqb_eq in E0. subst. auto.
  - destruct (str_endswith "/" folder_path) eqn:E1; simpl.
    + rewrite E0, E1. auto.
    + rewrite str_endswith_app.
      destruct (String.eqb (folder_path ++ "/") "") eqn:E2;
        [apply String.eqb_eq in E2; exfalso; exact (append_nonempty _ _ _ E2)|].
      simpl. auto.
Qed.

Section BreakdownFacts.
Import FolderScan Breakdown.

Lemma insert_by_size_perm x l : Permutation (insert_by_size x l) (x :: l).
Proof.
  induction l as [|y r IH]; simpl; [reflexivity|].
  destruct (st_size (snd y) <? st_size (snd x))%Z; [reflexivity|].
  rewrite IH. apply perm_swap.
Qed.

Lemma sorted_subfolders_perm d : Permutation (sorted_subfolders d) d.
Proof.
  unfold sorted_subfolders.
  assert (forall acc, Permutation (fold_left (fun acc x => insert_by_size x acc) d acc) (rev d ++ acc))
    as H.
  { induction d as [|x r IH]; intros acc; simpl; [reflexivity|].
    rewrite IH, insert_by_size_perm, <- app_assoc. reflexivity. }
  rewrite H, app_nil_r. symmetry. apply Permutation_rev.
Qed.

Lemma insert_by_size_sorted x l :
  Sorted (fun a b : string * SubStat => (st_size (snd b) <= st_size (snd a))%Z) l ->
  Sorted (fun a b : string * SubStat => (st_size (snd b) <= st_size (snd a))%Z) (insert_by_size x l).
Proof.
  induction l as [|y r IH]; intros H; simpl; [repeat constructor|].
  destruct (st_size (snd y) <? st_size (snd x))%Z eqn:E.
  - apply Z.ltb_lt in E. constructor; [exact H|constructor; lia].
  - apply Z.ltb_ge in E. inversion H as [|? ? Hr Hh]; subst.
    constructor; [apply IH, Hr|].
    destruct r as [|z r']; simpl; [constructor; lia|].
    inversion Hh; subst.
    destruct (st_size (snd z) <? st_size (snd x))%Z; constructor; lia.
Qed.

Lemma sorted_subfolders_sorted d :
  Sorted (fun a b : string * SubStat => (st_size (snd b) <= st_size (snd a))%Z) (sorted_subfolders d).
Proof.
  unfold sorted_subfolders. generalize (@Sorted_nil _ (fun a b : string * SubStat =>
    (st_size (snd b) <= st_size (snd a))%Z)).
  generalize (@nil (string * SubStat)).
  induction d as [|x r IH]; intros acc H; simpl; [exact H|].
  apply IH, insert_by_size_sorted, H.
Qed.

Lemma strongly_sorted_app {A} (R : A -> A -> Prop) a b x y :
  StronglySorted R (a ++ b) -> In x a -> In y b -> R x y.
Proof.
  induction a as [|z r IH]; simpl; [intros _ []|].
  intros H [<-|Hx] Hy; inversion H as [|? ? Hs Hf]; subst.
  - rewrite Forall_forall in Hf. apply Hf, in_or_app. right. exact Hy.
  - apply IH; assumption.
Qed.

Lemma loop_fold fp m l st :
  fold_left (loop_step fp m) l st =
  mkLS (displayed_count st + Z.of_nat (List.length (firstn (Z.to_nat (m - displayed_count st)) l)))
       (remaining_size st + stat_sizes (skipn (Z.to_nat (m - displayed_count st)) l))
       (remaining_count st + stat_counts (skipn (Z.to_nat (m - displayed_count st)) l))
       (rows st ++ map (shown_row fp) (firstn (Z.to_nat (m - displayed_count st)) l))%list.
Proof.
  revert st; induction l as [|[p dt] r IH]; intros [c rs rc rw].
  - cbn [fold_left]. rewrite firstn_nil, skipn_nil. simpl. rewrite app_nil_r. f_equal; lia.
  - cbn [fold_left]. unfold loop_step at 2. simpl displayed_count.
    destruct (c <? m)%Z eqn:E.
    + apply Z.ltb_lt in E. rewrite IH. simpl.
      replace (Z.to_nat (m - c)) with (S (Z.to_nat (m - (c + 1)))) by lia.
      cbn [firstn skipn List.length map]. rewrite <- app_assoc. simpl. f_equal. lia.
    + apply Z.ltb_ge in E. rewrite IH. simpl.
      replace (Z.to_nat (m - c)) with O by lia. replace (Z.to_nat (m - c)) with O by lia.
      cbn [firstn skipn List.length map]. rewrite app_nil_r. simpl. f_equal; lia.
Qed.

Lemma stat_sizes_app a b : stat_sizes (a ++ b) = (stat_sizes a + stat_sizes b)%Z.
Proof. induction a as [|x r IH]; simpl; [reflexivity|]. rewrite IH. lia. Qed.

Lemma stat_sizes_perm a b : Permutation a b -> stat_sizes a = stat_sizes b.
Proof. induction 1; simpl; lia. Qed.

Lemma stat_sizes_nonneg l : (forall e, In e l -> 0 <= st_size (snd e))%Z -> (0 <= stat_sizes l)%Z.
Proof.
  induction l as [|x r IH]; simpl; intros H; [lia|].
  specialize (IH (fun e He => H e (or_intror He))). specialize (H x (or_introl eq_refl)). lia.
Qed.

Lemma rows_sizes fp l :
  fold_right (fun r acc => (snd (fst r) + acc)%Z) 0%Z (map (shown_row fp) l) = stat_sizes l.
Proof. induction l as [|[p dt] r IH]; simpl; [reflexivity|]. rewrite IH. reflexivity. Qed.

(** X9 *)
(** The subfolder breakdown of [main] prints the first [max_subfolders]
    entries of the sorted subfolders (none when it is zero or negative),
    and one more line for all the others only when their total size is
    positive, with the number [len - max_subfolders], their size and their
    object count. *)
Theorem breakdown_rows_and_rest fp m d :
  let sorted := sorted_subfolders d in
  let hidden := skipn (Z.to_nat m) sorted in
  breakdown fp m d =
  (map (shown_row fp) (firstn (Z.to_nat m) sorted),
   if (0 <? stat_sizes hidden)%Z
   then Some (Z.of_nat (List.length d) - m, stat_sizes hidden, stat_counts hidden)%Z
   else None).
Proof.
  cbv zeta. unfold breakdown. rewrite loop_fold. simpl.
  rewrite Z.sub_0_r, (Permutation_length (sorted_subfolders_perm d)). reflexivity.
Qed.

(** X10 *)
(** The breakdown sorts the subfolders as a permutation of the dict, and
    every shown subfolder is at least as large as every hidden one. *)
Theorem breakdown_shows_largest m d :
  let sorted := sorted_subfolders d in
  Permutation sorted d /\
  (forall x y, In x (firstn (Z.to_nat m) sorted) -> In y (skipn (Z.to_nat m) sorted) ->
               (st_size (snd y) <= st_size (snd x))%Z).
Proof.
  cbv zeta. split; [apply sorted_subfolders_perm|].
  intros x y Hx Hy.
  apply (strongly_sorted_app (fun a b : string * SubStat => (st_size (snd b) <= st_size (snd a))%Z)
    (firstn (Z.to_nat m) (sorted_subfolders d)) (skipn (Z.to_nat m) (sorted_subfolders d)) x y);
    [|exact Hx|exact Hy].
  rewrite firstn_skipn. apply Sorted_StronglySorted; [intros a b c; lia|].
  apply sorted_subfolders_sorted.
Qed.

(** X11 *)
(** With sizes that are not negative, the shown sizes and the size of the
    rest line (zero when it is absent) add up to the total of the dict: a
    rest line is left out only when the hidden subfolders hold no bytes. *)
Theorem breakdown_sizes_add_up fp m d :
  (forall e, In e d -> 0 <= st_size (snd e))%Z ->
  let '(rows, rest) := breakdown fp m d in
  (fold_right (fun r acc => snd (fst r) + acc) 0 rows
   + match rest with Some (_, rs, _) => rs | None => 0 end)%Z = stat_sizes d.
Proof.
  intros Hnn. rewrite breakdown_rows_and_rest. cbv zeta.
  rewrite rows_sizes.
  rewrite <- (stat_sizes_perm _ _ (sorted_subfolders_perm d)).
  assert (Hs : stat_sizes (sorted_subfolders d)
               = (stat_sizes (firstn (Z.to_nat m) (sorted_subfolders d))
                  + stat_sizes (skipn (Z.to_nat m) (sorted_subfolders d)))%Z)
    by (rewrite <- stat_sizes_app, firstn_skipn; reflexivity).
  rewrite Hs.
  destruct (0 <? stat_sizes (skipn (Z.to_nat m) (sorted_subfolders d)))%Z eqn:E; [reflexivity|].
  apply Z.ltb_ge in E.
  assert (0 <= stat_sizes (skipn (Z.to_nat m) (sorted_subfolders d)))%Z; [|lia].
  apply stat_sizes_nonneg. intros e He. apply Hnn.
  apply (Permutation_in _ (sorted_subfolders_perm d)). rewrite <- (firstn_skipn (Z.to_nat m)). apply in_or_app. right. exact He.
Qed.

Lemma breakdown_sizes_add_up_witness :
  (forall e, In e [("f/a/", mkStat 5 1); ("f/b/", mkStat 7 2); ("f/c/", mkStat 1 1)]
             -> 0 <= st_size (snd e))%Z /\
  (let '(rows, rest) := breakdown "f/" 1 [("f/a/", mkStat 5 1); ("f/b/", mkStat 7 2); ("f/c/", mkStat 1 1)] in
   (fold_right (fun r acc => snd (fst r) + acc) 0 rows
    + match rest with Some (_, rs, _) => rs | None => 0 end)%Z
   = stat_sizes [("f/a/", mkStat 5 1); ("f/b/", mkStat 7 2); ("f/c/", mkStat 1 1)]).
Proof.
  assert (H : forall e, In e [("f/a/", mkStat 5 1); ("f/b/", mkStat 7 2); ("f/c/", mkStat 1 1)]
             -> (0 <= st_size (snd e))%Z)
    by (simpl; intros e [<-|[<-|[<-|[]]]]; simpl; lia).
  split; [exact H|]. apply (breakdown_sizes_add_up "f/" 1 _ H).
Defined.

(** X12 *)
(** The number of further subfolders on the rest line is the number of
    hidden subfolders when [max_subfolders] is not negative; for a negative
    [max_subfolders] it exceeds it by [-max_subfolders]. *)
Theorem breakdown_rest_count fp m d rows n rs rc :
  breakdown fp m d = (rows, Some (n, rs, rc)) ->
  let hidden := skipn (Z.to_nat m) (sorted_subfolders d) in
  (0 < rs)%Z /\
  ((0 <= m)%Z -> n = Z.of_nat (List.length hidden)) /\
  ((m < 0)%Z -> n = (Z.of_nat (List.length hidden) - m)%Z).
Proof.
  rewrite breakdown_rows_and_rest. cbv zeta.
  destruct (0 <? stat_sizes (skipn (Z.to_nat m) (sorted_subfolders d)))%Z eqn:E;
    [|discriminate].
  intros H. injection H as _ <- <- _. apply Z.ltb_lt in E. split; [exact E|].
  rewrite length_skipn, (Permutation_length (sorted_subfolders_perm d)).
  assert (Hk : (Z.to_nat m < List.length d)%nat).
  { destruct (Nat.lt_ge_cases (Z.to_nat m) (List.length d)) as [Hl|Hl]; [exact Hl|].
    rewrite skipn_all2 in E; [simpl in E; lia|].
    rewrite (Permutation_length (sorted_subfolders_perm d)). exact Hl. }
  split; intros Hm; lia.
Qed.

Lemma breakdown_rest_count_witness :
  breakdown "f/" 1 [("f/a/", mkStat 5 1); ("f/b/", mkStat 7 2); ("f/c/", mkStat 1 1)]
  = ([("b", 7%Z, 2%Z)], Some (2%Z, 6%Z, 2%Z)) /\
  (0 < 6)%Z /\
  ((0 <= 1)%Z -> 2%Z = Z.of_nat (List.length (skipn (Z.to_nat 1)
     (sorted_subfolders [("f/a/", mkStat 5 1); ("f/b/", mkStat 7 2); ("f/c/", mkStat 1 1)])))) /\
  ((1 < 0)%Z -> 2%Z = (Z.of_nat (List.length (skipn (Z.to_nat 1)
     (sorted_subfolders [("f/a/", mkStat 5 1); ("f/b/", mkStat 7 2); ("f/c/", mkStat 1 1)]))) - 1)%Z).
Proof.
  assert (H : breakdown "f/" 1 [("f/a/", mkStat 5 1); ("f/b/", mkStat 7 2); ("f/c/", mkStat 1 1)]
              = ([("b", 7%Z, 2%Z)], Some (2%Z, 6%Z, 2%Z))) by reflexivity.
  split; [exact H|]. exact (breakdown_rest_count _ _ _ _ _ _ _ H).
Defined.

End BreakdownFacts.

(** X13 *)
(** [get_bucket_region] never answers an empty region: a missing or empty
    [LocationConstraint] becomes ["us-east-1"], and [None] comes exactly
    from an exception. *)
Theorem get_bucket_region_never_empty resp :
  Region.get_bucket_region resp <> Some "" /\
  (Region.get_bucket_region resp = None <-> resp = Exc).
Proof.
  destruct resp as [[r|]|]; simpl.
  - destruct (String.eqb r "") eqn:E.
    + split; [discriminate|split; discriminate].
    + apply String.eqb_neq in E. split; [congruence|split; discriminate].
  - split; [discriminate|split; discriminate].
  - split; [discriminate|tauto].
Qed.

Section SummaryFacts.
Import Summary.

Lemma summary_total_acc (l : list (string * Z)) (a : Z) :
  fold_left (fun t p => (t + snd p)%Z) l a = (a + fold_right (fun p acc => (snd p + acc)%Z) 0 l)%Z.
Proof.
  revert a; induction l as [|x r IH]; intros a; simpl; [lia|]. rewrite IH. lia.
Qed.

Lemma summary_total_perm l l' :
  Permutation l l' -> summary_total l = fold_right (fun p acc => (snd p + acc)%Z) 0%Z l'.
Proof.
  intros H. unfold summary_total. rewrite summary_total_acc. simpl.
  induction H; simpl; lia.
Qed.

Lemma rows_format_true fmt l :
  (forall p, In p l -> exists s, fmt (snd p) = Ok s) -> rows_format fmt l = true.
Proof.
  intros H. unfold rows_format. apply forallb_forall. intros p Hp.
  destruct (H p Hp) as [s Hs]. rewrite Hs. reflexivity.
Qed.

Lemma rows_format_false fmt l :
  rows_format fmt l = false -> exists p, In p l /\ fmt (snd p) = Exc.
Proof.
  unfold rows_format. induction l as [|x r IH]; simpl; [discriminate|].
  destruct (fmt (snd x)) eqn:E; simpl.
  - intros H. destruct (IH H) as [p [Hp Hf]]. eauto.
  - intros _. eauto.
Qed.

Lemma print_summary_cases fmt l :
  match print_summary fmt l with
  | Summary s t => s = l /\ t = summary_total l
  | Uncaught => (exists p, In p l /\ fmt (snd p) = Exc) \/ fmt (summary_total l) = Exc
  | _ => False
  end.
Proof.
  unfold print_summary.
  destruct (rows_format fmt l) eqn:E.
  - destruct (fmt (summary_total l)) eqn:F; auto.
  - left. apply rows_format_false, E.
Qed.

Lemma bucket_result_formats cw b : exists s, FormatSize.format_size (Metrics.bucket_result cw b) = Ok s.
Proof.
  unfold Metrics.bucket_result.
  destruct (Metrics.get_bucket_size_cloudwatch cw b) as [log [name size]].
  destruct (FormatSize.format_size size) eqn:E; [exists a; exact E|exists "0 B"; reflexivity].
Qed.

Lemma fan_out_results cw bs order :
  Permutation order (seq 0 (List.length bs)) ->
  Permutation (snd (Metrics.fan_out cw bs order)) (map (fun b => (b, Metrics.bucket_result cw b)) bs).
Proof.
  intros Hp. rewrite FanOutFacts.fan_out_eq. simpl.
  rewrite MetricsFacts.sort_desc_perm.
  rewrite (Permutation_map _ Hp).
  assert (E : map (fun b => (b, Metrics.bucket_result cw b)) bs
              = map (fun b => (b, Metrics.bucket_result cw b))
                    (map (fun i => nth i bs "") (seq 0 (List.length bs))))
    by (rewrite MetricsFacts.map_nth_seq_self; reflexivity).
  rewrite E, map_map.
  apply Permutation_refl'. apply map_ext. intros i. apply FanOutFacts.entry_result.
Qed.

(** X14 *)
(** [main] of s3_bucket_sizes_fast.py, for any completion order of the
    futures: it exits with status 1 only when the credential check fails,
    reports no buckets only when the filtered list is empty, raises only
    when formatting the grand total raises (every row was already
    formatted once), and otherwise prints the collected pairs, a
    permutation of the per-bucket results sorted by decreasing size, with
    their sum as total. *)
Theorem main_fast_outcomes sts cw resp order :
  let names := snd (Enumeration.get_all_bucket_names resp) in
  let results := map (fun b => (b, Metrics.bucket_result cw b)) names in
  let total := fold_right (fun p acc => (snd p + acc)%Z) 0%Z results in
  Permutation order (seq 0 (List.length names)) ->
  match main_fast sts cw resp order with
  | ExitStatus code => sts = Exc /\ code = 1%Z
  | NoBuckets => names = []
  | Uncaught => names <> [] /\ FormatSize.format_size total = Exc
  | Summary sorted t => t = total /\ Permutation sorted results /\ Sorted Metrics.desc sorted
  end.
Proof.
  cbv zeta. intros Hp. unfold main_fast.
  destruct sts as [u|]; [|auto].
  set (names := snd (Enumeration.get_all_bucket_names resp)) in *.
  pose proof (fan_out_results cw names order Hp) as Hr.
  pose proof (print_summary_cases FormatSize.format_size (snd (Metrics.fan_out cw names order))) as Hc.
  destruct names as [|b r] eqn:En; [reflexivity|].
  rewrite <- En in *.
  destruct (print_summary FormatSize.format_size (snd (Metrics.fan_out cw names order))); try contradiction.
  - split; [subst names; congruence|].
    destruct Hc as [[p [Hin Hf]]|Hf].
    + apply (Permutation_in _ Hr) in Hin. apply in_map_iff in Hin as [b' [<- _]].
      destruct (bucket_result_formats cw b') as [s' Hs]. simpl in Hf. congruence.
    + rewrite (summary_total_perm _ _ Hr) in Hf. exact Hf.
  - destruct Hc as [-> ->]. split; [apply summary_total_perm, Hr|split; [exact Hr|]].
    rewrite FanOutFacts.fan_out_eq. apply MetricsFacts.sort_desc_sorted.
Qed.

Lemma main_fast_outcomes_witness :
  Permutation ex_order (seq 0 (List.length (snd (Enumeration.get_all_bucket_names (Ok ex_buckets))))) /\
  match main_fast (Ok tt) cw_broken (Ok ex_buckets) ex_order with
  | ExitStatus code => Ok tt = Exc /\ code = 1%Z
  | NoBuckets => snd (Enumeration.get_all_bucket_names (Ok ex_buckets)) = []
  | Uncaught => snd (Enumeration.get_all_bucket_names (Ok ex_buckets)) <> [] /\
      FormatSize.format_size (fold_right (fun p acc => (snd p + acc)%Z) 0%Z
        (map (fun b => (b, Metrics.bucket_result cw_broken b))
           (snd (Enumeration.get_all_bucket_names (Ok ex_buckets))))) = Exc
  | Summary sorted t =>
      t = fold_right (fun p acc => (snd p + acc)%Z) 0%Z
            (map (fun b => (b, Metrics.bucket_result cw_broken b))
               (snd (Enumeration.get_all_bucket_names (Ok ex_buckets)))) /\
      Permutation sorted (map (fun b => (b, Metrics.bucket_result cw_broken b))
                            (snd (Enumeration.get_all_bucket_names (Ok ex_buckets)))) /\
      Sorted Metrics.desc sorted
  end.
Proof.
  assert (Hp : Permutation ex_order
                 (seq 0 (List.length (snd (Enumeration.get_all_bucket_names (Ok ex_buckets)))))).
  { vm_compute. apply (Permutation_trans (l' := [0; 2; 3; 1]%nat)); [apply perm_swap|].
    apply perm_skip. apply (Permutation_trans (l' := [2; 1; 3]%nat)); [apply perm_skip, perm_swap|].
    apply perm_swap. }
  split; [exact Hp|]. exact (main_fast_outcomes (Ok tt) cw_broken (Ok ex_buckets) ex_order Hp).
Defined.

End SummaryFacts.

Section CliMainFacts.
Import Cli Summary MainCli.

Lemma cli_returned run b log res :
  get_bucket_size_cli run b = Returned log res -> res = (b, cli_size run b).
Proof.
  unfold cli_size. intros H. rewrite H.
  unfold get_bucket_size_cli in H.
  destruct (run (cli_cmd b)) as [rc o e| | |]; try discriminate;
    [|injection H as _ <-; reflexivity|injection H as _ <-; reflexivity].
  destruct (negb (rc =? 0)%Z); [injection H as _ <-; reflexivity|].
  destruct (search_total o); injection H as _ <-; reflexivity.
Qed.

Lemma cli_sysexit run b code log :
  get_bucket_size_cli run b = SysExit code log -> code = 1%Z /\ run (cli_cmd b) = FileNotFoundError.
Proof.
  unfold get_bucket_size_cli.
  destruct (run (cli_cmd b)) as [rc o e| | |]; try discriminate.
  - destruct (negb (rc =? 0)%Z); [discriminate|]. destruct (search_total o); discriminate.
  - intros H. injection H as <- _. auto.
Qed.

Lemma size_loop_cases run names :
  match size_loop run names with
  | Collected l => l = map (fun b => (b, cli_size run b)) names /\
                   forall b, In b names -> exists s, FormatSize.format_size_cli (cli_size run b) = Ok s
  | LoopExit code => code = 1%Z /\ exists b, In b names /\ run (cli_cmd b) = FileNotFoundError
  | LoopRaise => exists b, In b names /\ FormatSize.format_size_cli (cli_size run b) = Exc
  end.
Proof.
  induction names as [|b r IH]; simpl; [split; [reflexivity|intros _ []]|].
  destruct (get_bucket_size_cli run b) as [log res|code log] eqn:G.
  - apply cli_returned in G. subst res. simpl.
    destruct (FormatSize.format_size_cli (cli_size run b)) as [s|] eqn:F; [|eauto].
    destruct (size_loop run r) as [l|code|].
    + destruct IH as [-> Hf]. split; [reflexivity|].
      intros b' [<-|Hb]; [eauto|apply Hf, Hb].
    + destruct IH as [-> [b' [Hb Hr]]]. eauto.
    + destruct IH as [b' [Hb Hr]]. eauto.
  - apply cli_sysexit in G as [-> Hr]. eauto.
Qed.

(** X15 *)
(** [main] of s3_bucket_sizes_cli.py: it exits only with status 1, when the
    version check fails or a bucket listing finds no [aws] program; it
    raises only when the version check raises, when formatting the size of
    a bucket raises or when formatting the total raises; otherwise it
    prints the per-bucket sizes in input order sorted by decreasing size,
    with their sum as total. *)
Theorem main_cli_outcomes run resp :
  let names := snd (Enumeration.get_all_bucket_names_cli resp) in
  let results := map (fun b => (b, cli_size run b)) names in
  let total := fold_right (fun p acc => (snd p + acc)%Z) 0%Z results in
  match main run resp with
  | ExitStatus code =>
      code = 1%Z /\
      (check_aws_cli run = Ok false \/ exists b, In b names /\ run (cli_cmd b) = FileNotFoundError)
  | Uncaught =>
      check_aws_cli run = Exc \/
      (exists b, In b names /\ FormatSize.format_size_cli (cli_size run b) = Exc) \/
      FormatSize.format_size_cli total = Exc
  | NoBuckets => names = []
  | Summary sorted t => sorted = Metrics.sort_desc results /\ t = total
  end.
Proof.
  cbv zeta. unfold main.
  destruct (check_aws_cli run) as [[|]|] eqn:Ec; auto.
  set (names := snd (Enumeration.get_all_bucket_names_cli resp)).
  destruct names as [|b0 r0] eqn:En; [reflexivity|]. rewrite <- En.
  pose proof (size_loop_cases run names) as Hl.
  destruct (size_loop run names) as [l|code|]; [|destruct Hl as [-> H]; auto|eauto].
  destruct Hl as [-> Hf].
  pose proof (print_summary_cases FormatSize.format_size_cli
                (Metrics.sort_desc (map (fun b => (b, cli_size run b)) names))) as Hc.
  destruct (print_summary _ _); try contradiction.
  - right. destruct Hc as [[p [Hin Hp]]|Ht].
    + apply (Permutation_in _ (MetricsFacts.sort_desc_perm _)) in Hin.
      apply in_map_iff in Hin as [b [<- Hb]]. left. eauto.
    + right. rewrite (summary_total_perm _ _ (MetricsFacts.sort_desc_perm _)) in Ht. exact Ht.
  - destruct Hc as [-> ->]. split; [reflexivity|].
    apply summary_total_perm, MetricsFacts.sort_desc_perm.
Qed.

End CliMainFacts.

Lemma str_split_eq_app_output p :
  str_split "="%char ("--output=" ++ p) = "--output" :: str_split "="%char p.
Proof. reflexivity. Qed.

(** X16 *)
(** An [--output=] option of s3_folder_sizes_2level.py keeps only the text
    up to the next ['=']: a path holding ['='] is cut there; later options
    are read afterwards and override it. *)
Theorem output_option_cut py_int_of_str p rest depth output_file :
  Options.parse_options py_int_of_str (("--output=" ++ p) :: rest) depth output_file =
  Options.parse_options py_int_of_str rest depth (Some (hd "" (str_split "="%char p))).
Proof.
  assert (H1 : str_startswith "--depth=" ("--output=" ++ p) = false) by reflexivity.
  assert (H2 : str_startswith "--output=" ("--output=" ++ p) = true) by apply startswith_app.
  assert (H3 : nth 1 (str_split "="%char ("--output=" ++ p)) "" = hd "" (str_split "="%char p))
    by (rewrite str_split_eq_app_output; simpl; destruct (str_split "="%char p); reflexivity).
  cbn [Options.parse_options]. rewrite H1, H2, H3. reflexivity.
Qed.

(** X17 *)
(** A [--depth=] option whose value [int()] rejects makes the option loop
    raise, whatever the other options and their order. *)
Theorem bad_depth_option_raises py_int_of_str args a depth output_file :
  In a args -> str_startswith "--depth=" a = true ->
  py_int_of_str (nth 1 (str_split "="%char a) "") = Exc ->
  Options.parse_options py_int_of_str args depth output_file = Exc.
Proof.
  revert depth output_file. induction args as [|x r IH]; intros depth output_file Hin Hd Hv;
    [destruct Hin|].
  simpl. destruct Hin as [->|Hin].
  - rewrite Hd, Hv. reflexivity.
  - destruct (str_startswith "--depth=" x);
      [destruct (py_int_of_str (nth 1 (str_split "="%char x) "")); auto|].
    destruct (str_startswith "--output=" x); auto.
Qed.

Lemma bad_depth_option_raises_witness :
  In "--depth=two" ["--output=out.csv"; "--depth=two"] /\
  str_startswith "--depth=" "--depth=two" = true /\
  (fun v : string => if String.eqb v "2" then Ok 2%Z else Exc)
    (nth 1 (str_split "="%char "--depth=two") "") = Exc /\
  Options.parse_options (fun v => if String.eqb v "2" then Ok 2%Z else Exc)
    ["--output=out.csv"; "--depth=two"] 2 None = Exc.
Proof.
  split; [simpl; auto|]. split; [reflexivity|]. split; [reflexivity|].
  apply (bad_depth_option_raises _ _ "--depth=two"); [simpl; auto|reflexivity|reflexivity].
Defined.

Section TotalParse.
Import Cli.

Lemma digits_value_acc_pos u acc :
  digits_value_acc (Zpos acc) (NilEmpty.string_of_uint u) = Zpos (Pos.of_uint_acc u acc).
Proof.
  revert acc; induction u; intros acc; cbn [NilEmpty.string_of_uint digits_value_acc Pos.of_uint_acc];
    try reflexivity; rewrite <- IHu; f_equal;
    rewrite ?Pos2Z.inj_add, ?Pos2Z.inj_mul;
    try match goal with |- context[Z.of_nat ?x] =>
      let v := eval vm_compute in (Z.of_nat x) in change (Z.of_nat x) with v end;
    lia.
Qed.

Lemma digits_value_uint u : digits_value (NilEmpty.string_of_uint u) = Z.of_uint u.
Proof.
  unfold digits_value. induction u; cbn [NilEmpty.string_of_uint digits_value_acc];
    try reflexivity; simpl; try apply digits_value_acc_pos. exact IHu.
Qed.

Lemma digits_uint u : forallb is_digit (list_ascii_of_string (NilEmpty.string_of_uint u)) = true.
Proof. induction u; simpl; auto. Qed.

Lemma str_of_Z_nonneg n : (0 <= n)%Z ->
  exists u, FormatSize.str_of_Z n = NilEmpty.string_of_uint u /\ Z.of_uint u = n /\
            FormatSize.str_of_Z n <> "".
Proof.
  intros Hn. unfold FormatSize.str_of_Z.
  pose proof (DecimalZ.of_to n) as H.
  destruct n as [|p|p]; [|simpl in *|lia].
  - exists (Decimal.D0 Decimal.Nil). split; [reflexivity|split; [reflexivity|discriminate]].
  - exists (Pos.to_uint p). split; [reflexivity|]. split; [exact H|].
    destruct (Pos.to_uint p) eqn:E; try discriminate.
Qed.

Lemma span_app p a t :
  forallb p (list_ascii_of_string a) = true ->
  match t with String c _ => p c = false | EmptyString => True end ->
  span p (a ++ t) = (a, t).
Proof.
  intros Ha Ht. induction a as [|c r IH]; simpl in *.
  - destruct t as [|c r]; [reflexivity|]. simpl. rewrite Ht. reflexivity.
  - apply andb_true_iff in Ha as [Hc Hr]. rewrite Hc, (IH Hr). reflexivity.
Qed.

(** X18 *)
(** [get_bucket_size_cli] reads back the size the [aws] program prints: an
    output starting with ["Total Size:"], white space and the decimal
    digits of a size, followed by anything but a digit, gives that size. *)
Theorem cli_reads_printed_total run b ws n rest err :
  (0 <= n)%Z -> ws <> "" -> forallb is_space (list_ascii_of_string ws) = true ->
  match rest with String c _ => is_digit c = false | EmptyString => True end ->
  run (cli_cmd b) = Completed 0 ("Total Size:" ++ ws ++ FormatSize.str_of_Z n ++ rest) err ->
  get_bucket_size_cli run b = Returned [] (b, n).
Proof.
  intros Hn Hws Hsp Hr Hrun.
  destruct (str_of_Z_nonneg n Hn) as [u [Hu [Hv Hne]]].
  unfold get_bucket_size_cli. rewrite Hrun. simpl negb. cbv iota.
  assert (Hm : match_total_at ("Total Size:" ++ ws ++ FormatSize.str_of_Z n ++ rest) = Some n).
  { unfold match_total_at. rewrite prefix_app.
    change 11%nat with (String.length "Total Size:"). rewrite drop_app.
    rewrite span_app; [|exact Hsp|].
    - destruct (String.eqb ws "") eqn:E; [apply String.eqb_eq in E; contradiction|].
      rewrite Hu, span_app; [|apply digits_uint|exact Hr].
      rewrite <- Hu. destruct (String.eqb (FormatSize.str_of_Z n) "") eqn:E2;
        [apply String.eqb_eq in E2; contradiction|].
      rewrite Hu, digits_value_uint, Hv. reflexivity.
    - rewrite Hu in Hne |- *. destruct u; simpl; try reflexivity. contradiction. }
  assert (Hs : forall t, search_total t =
    match match_total_at t with
    | Some k => Some k
    | None => match t with EmptyString => None | String _ r => search_total r end
    end) by (intros [|c t]; reflexivity).
  rewrite Hs, Hm. reflexivity.
Qed.

Lemma cli_reads_printed_total_witness :
  (0 <= 1234)%Z /\ "   " <> "" /\ forallb is_space (list_ascii_of_string "   ") = true /\
  get_bucket_size_cli (run_ok "Total Size:   1234
") "a" = Returned [] ("a", 1234%Z).
Proof.
  split; [lia|]. split; [discriminate|]. split; [reflexivity|].
  apply (cli_reads_printed_total _ "a" "   " 1234 (String "010"%char EmptyString) "");
    [lia|discriminate|reflexivity|reflexivity|reflexivity].
Defined.

End TotalParse.

End Extras.
